(** * book-rewrite: the PDF structuring pipeline, embedded and verified

    A shallow embedding of the analyzers of [pdf_extractor]
    (chapter detection, paragraph, image and citation processing, quality
    assessment) together with the properties their specification states.

    Conventions of the embedding:
    - a Python [str] is a [string]; every character is a code point below
      256, classified as Python classifies it ([str.isspace], [\d], [\w],
      [str.lower]);
    - a Python [int] is a [Z];
    - a Python [float] is an exact rational [Q]: sums, products and
      comparisons are those of the rationals, compared with [==];
    - a [dict] read with [.get(key, default)] is a record of [option]
      fields, [None] standing for an absent key;
    - [uuid.uuid4()] draws from an explicit supply of identifiers;
    - a [try ... except Exception] turns a result of type [exn + A] into
      the handler's value. *)

From Stdlib Require Import List String Ascii Bool Arith ZArith QArith Lia Lqa.
From Stdlib Require Import Qminmax Permutation Sorted.
Import ListNotations.

Set Implicit Arguments.
Open Scope string_scope.
Open Scope list_scope.
Open Scope Z_scope.

(* ===================================================================== *)
(** ** Python strings *)
(* ===================================================================== *)

Module PyStr.

Definition code (c : ascii) : nat := nat_of_ascii c.

Definition between (lo hi : nat) (c : ascii) : bool :=
  ((lo <=? code c) && (code c <=? hi))%nat.

(** [str.isspace] on one character; also the class [\s]. *)
Definition isspace (c : ascii) : bool :=
  between 9 13 c || between 28 32 c
  || (code c =? 133)%nat || (code c =? 160)%nat.

(** The class [\d]. *)
Definition isdigit (c : ascii) : bool := between 48 57 c.

Definition is_ascii_upper (c : ascii) : bool := between 65 90 c.
Definition is_ascii_lower (c : ascii) : bool := between 97 122 c.

Definition isupper_char (c : ascii) : bool :=
  is_ascii_upper c || between 192 214 c || between 216 222 c.

Definition islower_char (c : ascii) : bool :=
  is_ascii_lower c || between 224 246 c || between 248 254 c.

(** The class [\w]. *)
Definition isword (c : ascii) : bool :=
  isdigit c || is_ascii_upper c || is_ascii_lower c || (code c =? 95)%nat
  || (code c =? 170)%nat || (code c =? 178)%nat || (code c =? 179)%nat
  || (code c =? 181)%nat || (code c =? 185)%nat || (code c =? 186)%nat
  || between 188 190 c || between 192 214 c || between 216 246 c
  || between 248 255 c.

(** The characters [str.islower] and [str.isupper] count as lower case
    and as upper case. *)
Definition is_lowercase (c : ascii) : bool :=
  is_ascii_lower c || (code c =? 170)%nat || (code c =? 181)%nat
  || (code c =? 186)%nat || between 223 246 c || between 248 255 c.
Definition is_uppercase (c : ascii) : bool := isupper_char c.

Definition lower_char (c : ascii) : ascii :=
  if isupper_char c then ascii_of_nat (code c + 32) else c.

Definition upper_char (c : ascii) : ascii :=
  if islower_char c then ascii_of_nat (code c - 32) else c.

Definition chars (s : string) : list ascii := list_ascii_of_string s.
Definition str (l : list ascii) : string := string_of_list_ascii l.

(** [len(s)] *)
Definition len (s : string) : Z := Z.of_nat (String.length s).

(** [s.lower()] *)
Definition lower (s : string) : string := str (map lower_char (chars s)).

(** [s.upper()], where every lower-case letter has its upper case in
    range. *)
Definition upper (s : string) : string := str (map upper_char (chars s)).

(** [s.lstrip()], [s.rstrip()], [s.strip()] *)
Fixpoint lstrip_chars (l : list ascii) : list ascii :=
  match l with
  | c :: l' => if isspace c then lstrip_chars l' else l
  | [] => []
  end.

Definition rstrip_chars (l : list ascii) : list ascii :=
  rev (lstrip_chars (rev l)).

Definition strip (s : string) : string :=
  str (rstrip_chars (lstrip_chars (chars s))).

(** [s.split()]: the maximal runs of non-whitespace characters. *)
Fixpoint split_ws_chars (cur : list ascii) (l : list ascii)
  : list (list ascii) :=
  match l with
  | [] => match cur with [] => [] | _ => [rev cur] end
  | c :: l' =>
      if isspace c
      then match cur with
           | [] => split_ws_chars [] l'
           | _ => rev cur :: split_ws_chars [] l'
           end
      else split_ws_chars (c :: cur) l'
  end.

Definition split_ws (s : string) : list string :=
  map str (split_ws_chars [] (chars s)).

(** [len(s.split())] *)
Definition word_count (s : string) : Z := 
  Z.of_nat (List.length (split_ws s)).

(** [s.startswith(p)] *)
Fixpoint prefix_chars (p l : list ascii) : bool :=
  match p, l with
  | [], _ => true
  | a :: p', b :: l' => Ascii.eqb a b && prefix_chars p' l'
  | _ :: _, [] => false
  end.

Definition startswith (s p : string) : bool :=
  prefix_chars (chars p) (chars s).

Definition endswith (s p : string) : bool :=
  prefix_chars (rev (chars p)) (rev (chars s)).

(** [p in s] *)
Fixpoint contains_chars (p l : list ascii) : bool :=
  prefix_chars p l ||
  match l with
  | [] => false
  | _ :: l' => contains_chars p l'
  end.

Definition contains (p s : string) : bool :=
  contains_chars (chars p) (chars s).

(** [s.split(sep)] for a non-empty separator. *)
Fixpoint split_on_chars (fuel : nat) (sep cur l : list ascii)
  : list (list ascii) :=
  match fuel with
  | O => [rev cur ++ l]
  | S fuel' =>
      match l with
      | [] => [rev cur]
      | c :: l' =>
          if prefix_chars sep l
          then rev cur :: split_on_chars fuel' sep [] (skipn (List.length sep) l)
          else split_on_chars fuel' sep (c :: cur) l'
      end
  end.

Definition split_on (sep s : string) : list string :=
  map str (split_on_chars (S (String.length s)) (chars sep) [] (chars s)).

(** [sep.join(parts)] *)
Definition join (sep : string) (parts : list string) : string :=
  String.concat sep parts.

(** [s[:n]] for [n >= 0] *)
Definition take (n : nat) (s : string) : string := str (firstn n (chars s)).

(** A non-empty string is truthy. *)
Definition truthy (s : string) : bool :=
  match s with EmptyString => false | _ => true end.

(** [s.isupper()] *)
Definition isupper (s : string) : bool :=
  negb (existsb is_lowercase (chars s)) && existsb is_uppercase (chars s).

(** [s.istitle()] *)
Fixpoint istitle_chars (previous_is_cased cased : bool) (l : list ascii)
  : bool :=
  match l with
  | [] => cased
  | c :: l' =>
      if is_uppercase c
      then if previous_is_cased then false else istitle_chars true true l'
      else if is_lowercase c
      then if previous_is_cased then istitle_chars true true l' else false
      else istitle_chars false cased l'
  end.

Definition istitle (s : string) : bool := istitle_chars false false (chars s).

(** [list(dict.fromkeys(l))]: the first occurrence of each string. *)
Fixpoint dedupe_from (seen : list string) (l : list string) : list string :=
  match l with
  | [] => []
  | x :: l' =>
      if existsb (String.eqb x) seen then dedupe_from seen l'
      else x :: dedupe_from (x :: seen) l'
  end.

Definition dedupe (l : list string) : list string := dedupe_from [] l.

(** [str(n)] for an integer. *)
Definition digit_char (d : Z) : ascii := ascii_of_nat (48 + Z.to_nat d).

Fixpoint digits_of (fuel : nat) (n : Z) (acc : list ascii) : list ascii :=
  match fuel with
  | O => acc
  | S fuel' =>
      if n <? 10 then digit_char n :: acc
      else digits_of fuel' (n / 10) (digit_char (n mod 10) :: acc)
  end.

Definition of_int (n : Z) : string :=
  if n <? 0
  then String "-" (str (digits_of (Z.to_nat (- n)) (- n) []))
  else str (digits_of (S (Z.to_nat n)) n []).

(** [f"{n:04d}"] for [n >= 0] *)
Definition pad4 (n : Z) : string :=
  let digits := of_int n in
  (str (repeat "0"%char (4 - String.length digits)) ++ digits)%string.

End PyStr.

(* ===================================================================== *)
(** ** Regular expressions, as Python's [re] module matches them *)
(* ===================================================================== *)

Module Re.
Import PyStr.

(** The fragment of the pattern language the analyzers use.  [Cls] is a
    character class ([[A-Z]], [\d], [\s], [\w]); [Star] is the greedy
    repetition; [Grp n] is the [n]-th capturing group; [Behind p] is the
    look-behind [(?<=[...])] for one character. *)
Inductive regex : Type :=
| Eps
| Lit (c : ascii)
| Cls (p : ascii -> bool)
| Any
| Seq (r1 r2 : regex)
| Alt (r1 r2 : regex)
| Star (r : regex)
| Bol
| Eol
| WordB
| Behind (p : ascii -> bool)
| Grp (n : nat) (r : regex).

Definition Plus (r : regex) : regex := Seq r (Star r).
Definition Opt (r : regex) : regex := Alt r Eps.

Fixpoint Rep (n : nat) (r : regex) : regex :=
  match n with
  | O => Eps
  | S n' => Seq r (Rep n' r)
  end.

Fixpoint lit_chars (l : list ascii) : regex :=
  match l with
  | [] => Eps
  | [c] => Lit c
  | c :: l' => Seq (Lit c) (lit_chars l')
  end.

(** A literal piece of text. *)
Definition Txt (s : string) : regex := lit_chars (chars s).

Fixpoint seqs (rs : list regex) : regex :=
  match rs with
  | [] => Eps
  | [r] => r
  | r :: rs' => Seq r (seqs rs')
  end.

Fixpoint alts (rs : list regex) : regex :=
  match rs with
  | [] => Eps
  | [r] => r
  | r :: rs' => Alt r (alts rs')
  end.

(** Character classes. *)
Definition one_of (s : string) (c : ascii) : bool :=
  existsb (Ascii.eqb c) (chars s).
Definition none_of (s : string) (c : ascii) : bool := negb (one_of s c).
Definition d : regex := Cls isdigit.
Definition s : regex := Cls isspace.
Definition w : regex := Cls isword.
Definition AZ : regex := Cls is_ascii_upper.
Definition az : regex := Cls is_ascii_lower.

Record flags : Type := { ignorecase : bool; multiline : bool }.

Definition no_flags : flags := {| ignorecase := false; multiline := false |}.
Definition IGNORECASE : flags := {| ignorecase := true; multiline := false |}.
Definition MULTILINE : flags := {| ignorecase := false; multiline := true |}.
Definition IGNORECASE_MULTILINE : flags :=
  {| ignorecase := true; multiline := true |}.

(** The state of a match in progress: the text already passed (last
    character first), the text still ahead, and the groups captured on
    the way (latest first). *)
Record mstate : Type :=
  { before : list ascii; ahead : list ascii;
    captured : list (nat * list ascii) }.

Definition newline : ascii := ascii_of_nat 10.

Definition lit_ok (f : flags) (c x : ascii) : bool :=
  if ignorecase f then Ascii.eqb (lower_char c) (lower_char x)
  else Ascii.eqb c x.

Definition cls_ok (f : flags) (p : ascii -> bool) (x : ascii) : bool :=
  if ignorecase f then p x || p (lower_char x) || p (upper_char x)
  else p x.

Definition step (st : mstate) (x : ascii) (xs : list ascii) : mstate :=
  {| before := x :: before st; ahead := xs; captured := captured st |}.

Definition at_bol (f : flags) (st : mstate) : bool :=
  match before st with
  | [] => true
  | c :: _ => multiline f && Ascii.eqb c newline
  end.

Definition at_eol (f : flags) (st : mstate) : bool :=
  match ahead st with
  | [] => true
  | c :: rest =>
      Ascii.eqb c newline &&
      (multiline f || match rest with [] => true | _ => false end)
  end.

Definition word_before (st : mstate) : bool :=
  match before st with [] => false | c :: _ => isword c end.
Definition word_ahead (st : mstate) : bool :=
  match ahead st with [] => false | c :: _ => isword c end.

Definition capture (n : nat) (st st' : mstate) : mstate :=
  {| before := before st'; ahead := ahead st';
     captured :=
       (n, firstn (List.length (ahead st) - List.length (ahead st'))
             (ahead st)) :: captured st' |}.

Section Matcher.
Variable A : Type.
Variable f : flags.

(** Backtracking matcher in continuation-passing style: alternatives
    are tried left to right and repetitions take as much as they can,
    as Python's engine does. *)
Fixpoint run (r : regex) (st : mstate) (k : mstate -> option A)
  : option A :=
  match r with
  | Eps => k st
  | Lit c =>
      match ahead st with
      | x :: xs => if lit_ok f c x then k (step st x xs) else None
      | [] => None
      end
  | Cls p =>
      match ahead st with
      | x :: xs => if cls_ok f p x then k (step st x xs) else None
      | [] => None
      end
  | Any =>
      match ahead st with
      | x :: xs => if Ascii.eqb x newline then None else k (step st x xs)
      | [] => None
      end
  | Seq r1 r2 => run r1 st (fun st' => run r2 st' k)
  | Alt r1 r2 =>
      match run r1 st k with
      | Some a => Some a
      | None => run r2 st k
      end
  | Star r' =>
      (fix loop (n : nat) (st0 : mstate) : option A :=
         match n with
         | O => k st0
         | S n' =>
             match
               run r' st0
                 (fun st' =>
                    if (List.length (ahead st')
                        <? List.length (ahead st0))%nat
                    then loop n' st' else None)
             with
             | Some a => Some a
             | None => k st0
             end
         end) (S (List.length (ahead st))) st
  | Bol => if at_bol f st then k st else None
  | Eol => if at_eol f st then k st else None
  | WordB => if xorb (word_before st) (word_ahead st) then k st else None
  | Behind p =>
      match before st with
      | c :: _ => if p c then k st else None
      | [] => None
      end
  | Grp n r' => run r' st (fun st' => k (capture n st st'))
  end.
End Matcher.

(** One match: where it starts, the text it covers, its groups. *)
Record Match : Type :=
  { start : Z; matched : string; groups : list (nat * string) }.

Fixpoint lookup_group (n : nat) (gs : list (nat * string)) : option string :=
  match gs with
  | [] => None
  | (m, g) :: gs' => if (m =? n)%nat then Some g else lookup_group n gs'
  end.

(** [m.group(n)] for [n >= 1], and [m.group(0)]. *)
Definition group (mt : Match) (n : nat) : string :=
  match n with
  | O => matched mt
  | _ => match lookup_group n (groups mt) with Some g => g | None => "" end
  end.

Definition match_here (f : flags) (r : regex) (bef ahd : list ascii)
  : option mstate :=
  run f r {| before := bef; ahead := ahd; captured := [] |}
    (fun st => Some st).

Definition to_match (bef ahd : list ascii) (st : mstate) : Match :=
  {| start := Z.of_nat (List.length bef);
     matched := str (firstn (List.length ahd - List.length (ahead st)) ahd);
     groups := map (fun '(n, g) => (n, str g)) (captured st) |}.

(** [re.match(r, text, flags)]: a match at the start of the text. *)
Definition re_match (f : flags) (r : regex) (text : string) : option Match :=
  match match_here f r [] (chars text) with
  | Some st => Some (to_match [] (chars text) st)
  | None => None
  end.

(** The scan of [finditer]: matches from left to right, none overlapping
    another. *)
Fixpoint scan (fuel : nat) (f : flags) (r : regex) (bef ahd : list ascii)
  : list Match :=
  match fuel with
  | O => []
  | S fuel' =>
      match match_here f r bef ahd with
      | Some st =>
          to_match bef ahd st ::
          (if (List.length (ahead st) <? List.length ahd)%nat
           then scan fuel' f r (before st) (ahead st)
           else match ahd with
                | [] => []
                | c :: ahd' => scan fuel' f r (c :: bef) ahd'
                end)
      | None =>
          match ahd with
          | [] => []
          | c :: ahd' => scan fuel' f r (c :: bef) ahd'
          end
      end
  end.

(** [re.finditer(r, text)] *)
Definition finditer (f : flags) (r : regex) (text : string) : list Match :=
  scan (S (String.length text)) f r [] (chars text).

(** [len(re.findall(r, text))] *)
Definition count (f : flags) (r : regex) (text : string) : Z :=
  Z.of_nat (List.length (finditer f r text)).

(** [re.search(r, text)] *)
Definition search (f : flags) (r : regex) (text : string) : option Match :=
  match finditer f r text with
  | [] => None
  | mt :: _ => Some mt
  end.

(** The pieces of text between the matches, in order. *)
Fixpoint between_matches (pos : nat) (l : list ascii) (ms : list Match)
  : list string :=
  match ms with
  | [] => [str l]
  | mt :: ms' =>
      let gap := (Z.to_nat (start mt) - pos)%nat in
      let used := String.length (matched mt) in
      str (firstn gap l) ::
      between_matches (Z.to_nat (start mt) + used) (skipn (gap + used) l) ms'
  end.

(** [re.split(r, text)] for a pattern without groups. *)
Definition split (f : flags) (r : regex) (text : string) : list string :=
  between_matches 0 (chars text) (finditer f r text).

(** [re.sub(r, repl, text)] for a replacement without back-references. *)
Definition sub (f : flags) (r : regex) (repl text : string) : string :=
  String.concat repl (split f r text).

End Re.

(* ===================================================================== *)
(** ** Python built-ins on lists and numbers *)
(* ===================================================================== *)

Module Py.

(** [d.get(key, default)] on an optional field. *)
Definition get {A : Type} (field : option A) (default : A) : A :=
  match field with
  | Some v => v
  | None => default
  end.

Definition Qltb (x y : Q) : bool := negb (Qle_bool y x).


(** [sorted(l, key=key)]: a stable sort, here by insertion from the
    right, so that equal keys keep their order. *)
Fixpoint insert_by {A : Type} (key : A -> Z) (x : A) (l : list A) : list A :=
  match l with
  | [] => [x]
  | y :: l' => if key x <=? key y then x :: l else y :: insert_by key x l'
  end.

Fixpoint sorted {A : Type} (key : A -> Z) (l : list A) : list A :=
  match l with
  | [] => []
  | x :: l' => insert_by key x (sorted key l')
  end.

(** [sum(l)] *)
Definition sum (l : list Z) : Z := fold_left Z.add l 0.
Definition sumQ (l : list Q) : Q := fold_left Qplus l 0%Q.

(** [len(l)] *)
Definition len {A : Type} (l : list A) : Z := Z.of_nat (List.length l).




End Py.

(* ===================================================================== *)
(** ** The data model ([models/extraction_models.py]) *)
(* ===================================================================== *)

Module Chapter.
Record t : Type := mk
  { id : string; number : Z; title : string; summary : string;
    word_count : Z; page_number : Z; confidence : Q }.

Definition set_number (c : t) (n : Z) : t :=
  mk (id c) n (title c) (summary c) (word_count c) (page_number c)
    (confidence c).
Definition set_word_count (c : t) (n : Z) : t :=
  mk (id c) (number c) (title c) (summary c) n (page_number c)
    (confidence c).
Definition set_confidence (c : t) (q : Q) : t :=
  mk (id c) (number c) (title c) (summary c) (word_count c) (page_number c) q.
End Chapter.

(** The text-block dictionaries the engines hand over. *)
Module BBox.
Record t : Type := mk
  { x0 : option Q; y0 : option Q; x1 : option Q; y1 : option Q }.

(** A dictionary is truthy when it has a key. *)
Definition truthy (b : t) : bool :=
  match x0 b, y0 b, x1 b, y1 b with
  | None, None, None, None => false
  | _, _, _, _ => true
  end.
End BBox.

Module FontInfo.
Record t : Type := mk
  { size : option Q; name : option string; bold : option bool }.
End FontInfo.

Module Block.
Record t : Type := mk
  { text : option string; page_number : option Z;
    bbox : option BBox.t; font_info : option FontInfo.t }.

Definition get_text (b : t) : string := Py.get (text b) "".
Definition get_page_number (b : t) : Z := Py.get (page_number b) 1.
End Block.

Module ExtractionConfig.
Record t : Type := mk { min_chapter_confidence : Q }.
Definition default : t := mk 0.7.
End ExtractionConfig.

(* ===================================================================== *)
(** ** Chapter detection ([analyzers/chapter_detection.py]) *)
(* ===================================================================== *)

Module ChapterDetectionEngine.
Import PyStr.



(** *** Consensus *)














(** *** Validation *)

Definition _calculate_chapter_word_count (chapter : Chapter.t)
  (text_blocks : list Block.t) : Z :=
  let next_chapter_page := Chapter.page_number chapter + 10 in
  fold_left
    (fun word_count block =>
       let block_page := Block.get_page_number block in
       if (Chapter.page_number chapter <=? block_page)
          && (block_page <? next_chapter_page)
       then word_count + PyStr.word_count (Block.get_text block)
       else word_count)
    text_blocks 0.

Definition _adjust_final_confidences (chapters : list Chapter.t)
  : list Chapter.t :=
  let word_counts :=
    filter (fun wc => 0 <? wc) (map Chapter.word_count chapters) in
  match word_counts with
  | [] => chapters
  | _ =>
      let avg_words :=
        (inject_Z (Py.sum word_counts) / inject_Z (Py.len word_counts))%Q in
      map (fun chapter =>
             if 0 <? Chapter.word_count chapter
             then
               let ratio :=
                 (inject_Z (Chapter.word_count chapter) / avg_words)%Q in
               if Py.Qltb ratio 0.3 || Py.Qltb 3.0 ratio
               then Chapter.set_confidence chapter
                      (Chapter.confidence chapter * 0.8)
               else chapter
             else chapter)
        chapters
  end.

(** [for i, chapter in enumerate(chapters): chapter.number = i + 1] *)
Fixpoint renumber (i : Z) (chapters : list Chapter.t) : list Chapter.t :=
  match chapters with
  | [] => []
  | chapter :: rest => Chapter.set_number chapter (i + 1) :: renumber (i + 1) rest
  end.

Definition _validate_and_refine (chapters : list Chapter.t)
  (text_blocks : list Block.t) : list Chapter.t :=
  match chapters with
  | [] => []
  | _ =>
      let sorted := Py.sorted Chapter.page_number chapters in
      let numbered := renumber 0 sorted in
      let counted :=
        map (fun chapter =>
               Chapter.set_word_count chapter
                 (_calculate_chapter_word_count chapter text_blocks))
          numbered in
      let min_words := 100 in
      let validated_chapters :=
        filter (fun ch => min_words <=? Chapter.word_count ch) counted in
      _adjust_final_confidences validated_chapters
  end.

(** *** Pattern-based detection *)

Definition _validate_chapter_candidate (text : string) (block : Block.t)
  : bool :=
  if 25 <? PyStr.word_count text then false
  else
    match Block.bbox block with
    | Some bbox =>
        if BBox.truthy bbox
        then
          let y_position := Py.get (BBox.y0 bbox) 0%Q in
          let page_height := 800%Q in
          let relative_position := (y_position / page_height)%Q in
          if Py.Qltb 0.7 relative_position then false else true
        else true
    | None => true
    end.

(** [int(chapter_num)] on the text of group 1, which is made of digits
    or of the letters I, V and X. *)
Definition digit_value (c : ascii) : Z := Z.of_nat (code c) - 48.

Definition int_of_str (text : string) : option Z :=
  match chars text with
  | [] => None
  | l =>
      if forallb isdigit l
      then Some (fold_left (fun n c => 10 * n + digit_value c) l 0)
      else None
  end.

Definition roman_map : list (string * Z) :=
  [("I", 1); ("II", 2); ("III", 3); ("IV", 4); ("V", 5); ("VI", 6);
   ("VII", 7); ("VIII", 8); ("IX", 9); ("X", 10)].

Fixpoint lookup (key : string) (table : list (string * Z)) : option Z :=
  match table with
  | [] => None
  | (k, v) :: table' => if String.eqb k key then Some v else lookup key table'
  end.

Definition _normalize_chapter_number (chapter_num : string) : Z :=
  match int_of_str chapter_num with
  | Some n => n
  | None => Py.get (lookup (upper chapter_num) roman_map) 1
  end.

Definition _calculate_pattern_confidence (pattern text : string) : Q :=
  let confidence := 0.8%Q in
  let confidence :=
    if contains "chapter" (lower pattern) then (confidence + 0.1)%Q
    else confidence in
  let confidence :=
    if contains "\d+" pattern then (confidence + 0.05)%Q else confidence in
  let confidence :=
    if PyStr.word_count text <? 2 then (confidence - 0.1)%Q
    else confidence in
  Qmax 0.1 (Qmin 1.0 confidence).

Definition _deduplicate_and_sort_chapters (chapters : list Chapter.t)
  : list Chapter.t :=
  fold_left
    (fun unique_chapters chapter =>
       let is_duplicate :=
         existsb
           (fun existing =>
              Z.abs (Chapter.page_number chapter
                     - Chapter.page_number existing) <=? 1)
           unique_chapters in
       if is_duplicate then unique_chapters
       else unique_chapters ++ [chapter])
    (Py.sorted Chapter.page_number chapters) [].

(** The pieces the chapter patterns are made of. *)
Definition number_or_roman : Re.regex :=
  Re.Alt (Re.Plus Re.d) (Re.Plus (Re.Cls (Re.one_of "IVX"))).
Definition space_dot_colon : Re.regex :=
  Re.Cls (fun c => isspace c || Re.one_of ".:" c).
Definition dot_paren_space : Re.regex :=
  Re.Cls (fun c => Re.one_of ".)" c || isspace c).

Definition keyword_pattern (keyword : string) : Re.regex :=
  Re.seqs [Re.Bol; Re.Txt keyword; Re.Plus Re.s; Re.Grp 1 number_or_roman;
           space_dot_colon; Re.Star Re.s; Re.Grp 2 (Re.Plus Re.Any); Re.Eol].

Definition numbered_pattern (numeral : Re.regex) : Re.regex :=
  Re.seqs [Re.Bol; Re.Grp 1 numeral; dot_paren_space; Re.Plus Re.s;
           Re.Grp 2 (Re.Plus Re.Any); Re.Eol].

(** The patterns of [_detect_by_patterns]: the source text, what it
    matches, and the base confidence. *)
Definition patterns : list (string * Re.regex * Q) :=
  [("^Chapter\s+(\d+|[IVX]+)[\s\.:]\s*(.+)$", keyword_pattern "Chapter", 1.0%Q);
   ("^CHAPTER\s+(\d+|[IVX]+)[\s\.:]\s*(.+)$", keyword_pattern "CHAPTER", 1.0%Q);
   ("^(\d+)[\.\)\s]\s+(.+)$", numbered_pattern (Re.Plus Re.d), 0.8%Q);
   ("^([IVX]+)[\.\)\s]\s+(.+)$",
    numbered_pattern (Re.Plus (Re.Cls (Re.one_of "IVX"))), 0.7%Q);
   ("^Part\s+(\d+|[IVX]+)[\s\.:]\s*(.+)$", keyword_pattern "Part", 0.9%Q);
   ("^Section\s+(\d+|[IVX]+)[\s\.:]\s*(.+)$", keyword_pattern "Section", 0.6%Q)].

(** The first line the pattern matches, stripped, with its match: the
    loop over the lines stops there. *)
Fixpoint first_matching_line (pattern : Re.regex) (lines : list string)
  : option (string * Re.Match) :=
  match lines with
  | [] => None
  | line :: lines' =>
      let line := strip line in
      match Re.re_match Re.IGNORECASE_MULTILINE pattern line with
      | Some mt => Some (line, mt)
      | None => first_matching_line pattern lines'
      end
  end.

Section PatternDetection.
(** The identifiers [uuid.uuid4()] returns, in the order drawn. *)
Variable uuid4 : nat -> string.

(** The chapters found so far and the number of identifiers drawn. *)
Definition Found : Type := (list Chapter.t * nat)%type.

Definition try_pattern (block : Block.t) (text : string) (found : Found)
  (entry : string * Re.regex * Q) : Found :=
  let '(pattern, compiled, base_confidence) := entry in
  let lines := split_on (str [Re.newline]) text in
  match first_matching_line compiled lines with
  | Some (line, mt) =>
      let chapter_num := Re.group mt 1 in
      let chapter_title := Re.group mt 2 in
      if _validate_chapter_candidate line block
      then
        let chapter_id := uuid4 (snd found) in
        let chapter :=
          Chapter.mk chapter_id (_normalize_chapter_number chapter_num)
            (strip chapter_title) "" 0 (Block.get_page_number block)
            (base_confidence * _calculate_pattern_confidence pattern line)
        in
        (fst found ++ [chapter], S (snd found))
      else found
  | None => found
  end.

Definition scan_block (found : Found) (block : Block.t) : Found :=
  let text := strip (Block.get_text block) in
  if truthy text then fold_left (try_pattern block text) patterns found
  else found.

(** The candidates before the final de-duplication. *)
Definition pattern_candidates (text_blocks : list Block.t)
  : list Chapter.t :=
  fst (fold_left scan_block text_blocks ([], O)).

Definition _detect_by_patterns (text_blocks : list Block.t)
  : list Chapter.t :=
  _deduplicate_and_sort_chapters (pattern_candidates text_blocks).
End PatternDetection.

End ChapterDetectionEngine.


(* ===================================================================== *)
(** ** The remaining models: paragraphs, images, citations *)
(* ===================================================================== *)

(** What a constructor or a call raises. *)
Inductive exn : Type :=
| ValidationError (field : string).

Inductive ParagraphType : Type := TEXT | QUOTE | LIST | HEADING | CAPTION | CODE.
Inductive ImportanceLevel : Type := HIGH | MEDIUM | LOW.
Inductive ImageType : Type := CHART | DIAGRAM | PHOTO | ILLUSTRATION | GRAPH | TABLE.
Inductive CitationType : Type := FOOTNOTE | ENDNOTE | INLINE | BIBLIOGRAPHY.
Inductive TextPosition : Type := TP_INLINE | ABOVE | BELOW | SIDE | FLOAT | ISOLATED.
Inductive ColumnPosition : Type := LEFT | RIGHT | CENTER | SPAN.

Module BoundingBox.
Record t : Type := mk { x : Q; y : Q; width : Q; height : Q }.
End BoundingBox.

Module Citation.
Record t : Type := mk
  { id : string; type : CitationType; content : string;
    page_number : option Z }.

End Citation.

Module Paragraph.
Record t : Type := mk
  { id : string; chapter_id : string; order_index : Z; content : string;
    word_count : Z; type : ParagraphType; importance : ImportanceLevel;
    concepts : list string; technical_terms : list string;
    citations : list Citation.t; page_number : Z;
    bounding_box : option BoundingBox.t; font_info : option FontInfo.t;
    confidence : Q }.
End Paragraph.

Module FlowContext.
Record t : Type := mk
  { wrapping_style : string; text_density_around : Q;
    creates_column_break : bool }.
End FlowContext.

Module ReferenceMention.
Record t : Type := mk
  { text : string; type : string; paragraph_id : string;
    position_in_text : Z; reference_number : option string }.
End ReferenceMention.

Module SpatialRelationships.
Record t : Type := mk
  { paragraphs_above : Z; paragraphs_below : Z; paragraphs_alongside : Z }.
End SpatialRelationships.

Module ImageData.
Record t : Type := mk
  { id : string; chapter_id : string; paragraph_id : option string;
    type : ImageType; file_name : string; file_size : Z;
    width : Z; height : Z; caption : option string;
    alt_text : string; description : string; relevance_score : Q;
    preservation_notes : string; improvement_suggestions : list string;
    page_number : Z; bounding_box : BoundingBox.t;
    text_position : TextPosition;
    paragraph_before_id : option string; paragraph_after_id : option string;
    column_position : ColumnPosition; flow_context : FlowContext.t;
    reference_mentions : list ReferenceMention.t;
    spatial_relationships : SpatialRelationships.t;
    raw_data : option string; description_confidence : Q }.

Definition in_range (lo hi q : Q) : bool := Qle_bool lo q && Qle_bool q hi.

(** The constructor checks the bounds the fields declare:
    [relevance_score] within 0 and 10, [description_confidence] within 0
    and 1. *)
Definition validate (image : t) : exn + t :=
  if negb (in_range 0 10 (relevance_score image))
  then inl (ValidationError "relevance_score")
  else if negb (in_range 0 1 (description_confidence image))
  then inl (ValidationError "description_confidence")
  else inr image.
End ImageData.

Module BookContent.
Record t : Type := mk
  { chapters : list Chapter.t; paragraphs : list Paragraph.t;
    images : list ImageData.t; citations : list Citation.t }.
End BookContent.

(* ===================================================================== *)
(** ** Quality assessment ([processors/quality_assessment.py]) *)
(* ===================================================================== *)

Module QualityAssessmentEngine.
Import PyStr.

(** [max(0.0, min(1.0, confidence))] *)
Definition clamp01 (confidence : Q) : Q := Qmax 0.0 (Qmin 1.0 confidence).

(** [list(range(1, n + 1))] *)
Definition range_from_1 (n : nat) : list Z := map Z.of_nat (seq 1 n).

Definition list_Z_eqb (l1 l2 : list Z) : bool :=
  if list_eq_dec Z.eq_dec l1 l2 then true else false.

Definition _assess_structure_quality (content : BookContent.t) : Q :=
  let confidence := 0.8%Q in
  let confidence :=
    match BookContent.chapters content with
    | [] => (confidence - 0.3)%Q
    | chapters =>
        let chapter_numbers :=
          filter (fun n => negb (n =? 0)) (map Chapter.number chapters) in
        let confidence :=
          match chapter_numbers with
          | [] => confidence
          | _ =>
              let expected := range_from_1 (List.length chapter_numbers) in
              if list_Z_eqb chapter_numbers expected
              then (confidence + 0.1)%Q else (confidence - 0.1)%Q
          end in
        let word_counts :=
          filter (fun wc => 0 <? wc) (map Chapter.word_count chapters) in
        match word_counts with
        | [] => confidence
        | _ =>
            let avg_words :=
              (inject_Z (Py.sum word_counts)
               / inject_Z (Py.len word_counts))%Q in
            let outliers :=
              filter
                (fun wc =>
                   Py.Qltb (inject_Z wc) (avg_words * 0.3)
                   || Py.Qltb (avg_words * 3) (inject_Z wc))
                word_counts in
            if Py.Qltb 0.2
                 (inject_Z (Py.len outliers) / inject_Z (Py.len word_counts))
            then (confidence - 0.1)%Q else confidence
        end
    end in
  clamp01 confidence.

Definition _assess_content_quality (content : BookContent.t) : Q :=
  let confidence := 0.8%Q in
  let confidence :=
    match BookContent.paragraphs content with
    | [] => (confidence - 0.4)%Q
    | paragraphs =>
        let word_counts := map Paragraph.word_count paragraphs in
        let very_short := Py.len (filter (fun wc => wc <? 5) word_counts) in
        let very_long := Py.len (filter (fun wc => 500 <? wc) word_counts) in
        let total_paras := Py.len paragraphs in
        let confidence :=
          if Py.Qltb 0.3
               (inject_Z (very_short + very_long) / inject_Z total_paras)
          then (confidence - 0.2)%Q else confidence in
        let para_confidences := map Paragraph.confidence paragraphs in
        let avg_confidence :=
          (Py.sumQ para_confidences / inject_Z (Py.len para_confidences))%Q in
        (confidence * avg_confidence)%Q
    end in
  clamp01 confidence.

Definition is_generic_description (image : ImageData.t) : bool :=
  let desc := lower (ImageData.description image) in
  existsb (fun generic => contains generic desc) ["image"; "chart"; "diagram"]
  && (word_count desc <? 5).

Definition has_context (img : ImageData.t) : bool :=
  match ImageData.reference_mentions img with
  | _ :: _ => true
  | [] => Py.Qltb 7 (ImageData.relevance_score img)
  end.

Definition _assess_image_quality (content : BookContent.t) : Q :=
  match BookContent.images content with
  | [] => 0.7%Q
  | images =>
      let confidence := 0.8%Q in
      let generic_descriptions :=
        Py.len (filter is_generic_description images) in
      let confidence :=
        if 0 <? generic_descriptions
        then
          let penalty :=
            Qmin 0.3 (inject_Z generic_descriptions / inject_Z (Py.len images))
          in (confidence - penalty)%Q
        else confidence in
      let images_with_context := Py.len (filter has_context images) in
      let context_ratio :=
        (inject_Z images_with_context / inject_Z (Py.len images))%Q in
      clamp01 (confidence * (0.7 + 0.3 * context_ratio))
  end.

Definition _assess_citation_quality (content : BookContent.t) : Q :=
  match BookContent.citations content with
  | [] => 0.8%Q
  | citations =>
      let confidence := 0.8%Q in
      let valid_citations :=
        Py.len
          (filter (fun cit => 10 <? len (strip (Citation.content cit)))
             citations) in
      let completeness_ratio :=
        (inject_Z valid_citations / inject_Z (Py.len citations))%Q in
      clamp01 (confidence * completeness_ratio)
  end.

(** The quality report, without its lists of issues and recommendations. *)
Record QualityReport : Type := mkReport
  { overall_confidence : Q; structure_confidence : Q;
    content_confidence : Q; image_confidence : Q; citation_confidence : Q }.

Definition comprehensive_quality_check (content : BookContent.t)
  : QualityReport :=
  let structure_confidence := _assess_structure_quality content in
  let content_confidence := _assess_content_quality content in
  let image_confidence := _assess_image_quality content in
  let citation_confidence := _assess_citation_quality content in
  let overall_confidence :=
    (structure_confidence * 0.3 + content_confidence * 0.4
     + image_confidence * 0.2 + citation_confidence * 0.1)%Q in
  mkReport overall_confidence structure_confidence content_confidence
    image_confidence citation_confidence.

End QualityAssessmentEngine.


(* ===================================================================== *)
(** ** Image processing ([analyzers/image_processor.py]) *)
(* ===================================================================== *)

(** The image dictionaries the engines hand over. *)
Module RawImage.
Record t : Type := mk
  { id : option string; bbox : option BBox.t;
    width : option Z; height : option Z; file_size : option Z;
    raw_data : option string; confidence : option Q;
    page_number : option Z }.
End RawImage.

Module ImageProcessor.
Import PyStr.

Record Context : Type := mkContext
  { preceding_text : string; following_text : string;
    caption : option string }.

Record Positioning : Type := mkPositioning
  { text_position : TextPosition;
    paragraph_before_id : option string; paragraph_after_id : option string;
    column_position : ColumnPosition; flow_context : FlowContext.t;
    reference_mentions : list ReferenceMention.t;
    spatial_relationships : SpatialRelationships.t }.

Definition ImageType_eqb (a b : ImageType) : bool :=
  match a, b with
  | CHART, CHART | DIAGRAM, DIAGRAM | PHOTO, PHOTO
  | ILLUSTRATION, ILLUSTRATION | GRAPH, GRAPH | TABLE, TABLE => true
  | _, _ => false
  end.

(** The four placeholders [_has_..._characteristics] all answer no. *)
Definition _has_chart_characteristics (img_data : RawImage.t) : bool := false.
Definition _has_diagram_characteristics (img_data : RawImage.t) : bool := false.
Definition _has_photo_characteristics (img_data : RawImage.t) : bool := false.
Definition _has_table_characteristics (img_data : RawImage.t) : bool := false.

Definition _classify_image_type (img_data : RawImage.t) : ImageType :=
  let width := Py.get (RawImage.width img_data) 0 in
  let height := Py.get (RawImage.height img_data) 0 in
  let aspect_ratio :=
    if 0 <? height then (inject_Z width / inject_Z height)%Q else 1.0%Q in
  let substantial :=
    if (400 <? width) && (300 <? height)
    then
      if Py.Qltb 0.8 aspect_ratio && Py.Qltb aspect_ratio 1.2 then Some CHART
      else if Py.Qltb 1.5 aspect_ratio then Some DIAGRAM
      else None
    else None in
  match substantial with
  | Some image_type => image_type
  | None =>
      if (width <? 100) || (height <? 100) then ILLUSTRATION
      else if _has_chart_characteristics img_data then CHART
      else if _has_diagram_characteristics img_data then DIAGRAM
      else if _has_photo_characteristics img_data then PHOTO
      else if _has_table_characteristics img_data then TABLE
      else ILLUSTRATION
  end.

Definition on_page (img_page : Z) (paragraphs : list Paragraph.t)
  : list Paragraph.t :=
  filter (fun p => Paragraph.page_number p =? img_page) paragraphs.

(** [l[-2:]] *)
Definition last_two {A : Type} (l : list A) : list A :=
  skipn (List.length l - 2) l.

Definition looks_like_caption (para_content : string) : bool :=
  existsb (fun keyword => contains keyword (lower para_content))
    ["figure"; "table"; "image"; "chart"]
  && (word_count para_content <=? 20).

Definition find_caption (page_paragraphs : list Paragraph.t) : option string :=
  match find (fun para => looks_like_caption (Paragraph.content para))
          page_paragraphs with
  | Some para => Some (Paragraph.content para)
  | None => None
  end.

Definition _extract_image_context (img_data : RawImage.t)
  (paragraphs : list Paragraph.t) : Context :=
  let img_page := Py.get (RawImage.page_number img_data) 1 in
  match on_page img_page paragraphs with
  | [] => mkContext "" "" None
  | unsorted =>
      let page_paragraphs := Py.sorted Paragraph.order_index unsorted in
      let mid_point := (List.length page_paragraphs / 2)%nat in
      let preceding_paras := firstn mid_point page_paragraphs in
      let preceding :=
        match preceding_paras with
        | [] => ""
        | _ => take 200 (join " " (map Paragraph.content
                                     (last_two preceding_paras)))
        end in
      let following_paras := skipn mid_point page_paragraphs in
      let following :=
        match following_paras with
        | [] => ""
        | _ => take 200 (join " " (map Paragraph.content
                                     (firstn 2 following_paras)))
        end in
      mkContext preceding following (find_caption page_paragraphs)
  end.

(** The reference patterns, each with whether it has a group. *)
Definition numbered_reference (names : Re.regex) : Re.regex :=
  Re.seqs [Re.WordB; names; Re.Plus Re.s;
           Re.Grp 1 (Re.Alt (Re.Plus Re.d) Re.az); Re.WordB].

Definition reference_patterns : list (Re.regex * bool) :=
  [(numbered_reference
      (Re.Alt (Re.Txt "figure") (Re.Seq (Re.Txt "fig") (Re.Opt (Re.Lit ".")))),
    true);
   (numbered_reference (Re.Alt (Re.Txt "chart") (Re.Txt "graph")), true);
   (numbered_reference (Re.Txt "table"), true);
   (numbered_reference (Re.Alt (Re.Txt "image") (Re.Txt "picture")), true);
   (Re.seqs
      [Re.alts [Re.Txt "above"; Re.Txt "below"; Re.Txt "following";
                Re.Txt "preceding"];
       Re.Plus Re.s;
       Re.alts [Re.Txt "figure"; Re.Txt "chart"; Re.Txt "graph";
                Re.Txt "table"; Re.Txt "image"; Re.Txt "diagram"]],
    false)].

Definition reference_of (para : Paragraph.t) (has_groups : bool)
  (mt : Re.Match) : ReferenceMention.t :=
  ReferenceMention.mk (Re.group mt 0)
    (if has_groups then "explicit_reference" else "implicit_reference")
    (Paragraph.id para) (Re.start mt)
    (if has_groups then Some (Re.group mt 1) else None).

Definition _find_image_references (paragraphs : list Paragraph.t)
  (img_data : RawImage.t) : list ReferenceMention.t :=
  flat_map
    (fun para =>
       flat_map
         (fun '(pattern, has_groups) =>
            map (reference_of para has_groups)
              (Re.finditer Re.IGNORECASE pattern (Paragraph.content para)))
         reference_patterns)
    paragraphs.

Definition _analyze_image_positioning (img_data : RawImage.t)
  (paragraphs : list Paragraph.t) : Positioning :=
  let img_page := Py.get (RawImage.page_number img_data) 1 in
  let page_paragraphs := on_page img_page paragraphs in
  let flow := FlowContext.mk "none" 0.5 false in
  match page_paragraphs with
  | [] =>
      mkPositioning TP_INLINE None None CENTER flow []
        (SpatialRelationships.mk 0 0 0)
  | _ =>
      let mid_index := (List.length page_paragraphs / 2)%nat in
      let before_id :=
        if (0 <? mid_index)%nat
        then option_map Paragraph.id
               (nth_error page_paragraphs (mid_index - 1))
        else None in
      let after_id :=
        if (mid_index <? List.length page_paragraphs - 1)%nat
        then option_map Paragraph.id (nth_error page_paragraphs mid_index)
        else None in
      mkPositioning TP_INLINE before_id after_id CENTER flow
        (_find_image_references page_paragraphs img_data)
        (SpatialRelationships.mk (Z.of_nat mid_index)
           (Py.len page_paragraphs - Z.of_nat mid_index) 0)
  end.

Definition base_descriptions (image_type : ImageType) : string :=
  match image_type with
  | CHART => "Data visualization chart"
  | DIAGRAM => "Process or conceptual diagram"
  | GRAPH => "Statistical graph"
  | TABLE => "Tabular data presentation"
  | PHOTO => "Photographic image"
  | ILLUSTRATION => "Illustrative graphic"
  end.

Definition mentions (words : list string) (text : string) : bool :=
  existsb (fun word => contains word text) words.

Definition _generate_smart_description (img_data : RawImage.t)
  (image_type : ImageType) (context : Context) : string :=
  let base_desc := base_descriptions image_type in
  let preceding := lower (preceding_text context) in
  let base_desc :=
    if truthy preceding
    then
      if mentions ["sales"; "revenue"; "profit"] preceding
      then if ImageType_eqb image_type CHART
           then "Sales/revenue chart" else base_desc
      else if mentions ["process"; "workflow"; "steps"] preceding
      then if ImageType_eqb image_type DIAGRAM
           then "Process workflow diagram" else base_desc
      else if mentions ["comparison"; "versus"; "compare"] preceding
      then if ImageType_eqb image_type CHART
           then "Comparison chart" else base_desc
      else base_desc
    else base_desc in
  let with_size :=
    let width := Py.get (RawImage.width img_data) 0 in
    let height := Py.get (RawImage.height img_data) 0 in
    if negb (width =? 0) && negb (height =? 0)
    then (base_desc ++ " (" ++ of_int width ++ "x" ++ of_int height
          ++ " pixels)")%string
    else base_desc in
  match caption context with
  | Some text =>
      if truthy text then (base_desc ++ ": " ++ text)%string else with_size
  | None => with_size
  end.

Definition has_caption (context : Context) : bool :=
  match caption context with
  | Some text => truthy text
  | None => false
  end.

Definition _calculate_relevance_score (context : Context)
  (description : string) : Q :=
  let relevance := 5.0%Q in
  let relevance :=
    if truthy (preceding_text context) || truthy (following_text context)
    then (relevance + 1.0)%Q else relevance in
  let relevance :=
    if has_caption context then (relevance + 1.5)%Q else relevance in
  let relevance :=
    if 5 <? word_count description then (relevance + 1.0)%Q else relevance in
  Qmin 10.0 relevance.

Definition _find_associated_chapter (img_data : RawImage.t)
  (chapters : list Chapter.t) : string :=
  let img_page := Py.get (RawImage.page_number img_data) 1 in
  let associated_chapter :=
    fold_left
      (fun associated chapter =>
         if Chapter.page_number chapter <=? img_page
         then
           match associated with
           | None => Some chapter
           | Some current =>
               if Chapter.page_number current <? Chapter.page_number chapter
               then Some chapter else associated
           end
         else associated)
      chapters None in
  match associated_chapter with
  | Some chapter => Chapter.id chapter
  | None => ""
  end.

Section Processing.
(** The identifiers [uuid.uuid4()] returns, in the order drawn. *)
Variable uuid4 : nat -> string.

(** The body of the [try]: the image built for one record, or what the
    attempt raises.  [drawn] counts the identifiers drawn before. *)
Definition process_one (drawn : nat) (img_data : RawImage.t)
  (paragraphs : list Paragraph.t) (chapters : list Chapter.t)
  : exn + ImageData.t :=
  let image_id := Py.get (RawImage.id img_data) (uuid4 drawn) in
  let image_type := _classify_image_type img_data in
  let context := _extract_image_context img_data paragraphs in
  let positioning := _analyze_image_positioning img_data paragraphs in
  let description := _generate_smart_description img_data image_type context in
  let relevance := _calculate_relevance_score context description in
  let bbox_data := Py.get (RawImage.bbox img_data) (BBox.mk None None None None) in
  let bounding_box :=
    BoundingBox.mk (Py.get (BBox.x0 bbox_data) 0%Q)
      (Py.get (BBox.y0 bbox_data) 0%Q)
      (Py.get (BBox.x1 bbox_data) 0%Q - Py.get (BBox.x0 bbox_data) 0%Q)
      (Py.get (BBox.y1 bbox_data) 0%Q - Py.get (BBox.y0 bbox_data) 0%Q) in
  let chapter_id := _find_associated_chapter img_data chapters in
  ImageData.validate
    (ImageData.mk image_id chapter_id (paragraph_before_id positioning)
       image_type (image_id ++ ".png")%string
       (Py.get (RawImage.file_size img_data) 0)
       (Py.get (RawImage.width img_data) 0)
       (Py.get (RawImage.height img_data) 0)
       (caption context) description description relevance "" []
       (Py.get (RawImage.page_number img_data) 1) bounding_box
       (text_position positioning)
       (paragraph_before_id positioning) (paragraph_after_id positioning)
       (column_position positioning) (flow_context positioning)
       (reference_mentions positioning) (spatial_relationships positioning)
       (RawImage.raw_data img_data)
       (Py.get (RawImage.confidence img_data) 0.8%Q)).

(** What the loop has done so far: the images kept, the warnings logged,
    the identifiers drawn. *)
Record Progress : Type := mkProgress
  { processed_images : list ImageData.t; warnings : list string;
    drawn : nat }.

Definition process_step (paragraphs : list Paragraph.t)
  (chapters : list Chapter.t) (progress : Progress) (img_data : RawImage.t)
  : Progress :=
  match process_one (drawn progress) img_data paragraphs chapters with
  | inr image =>
      mkProgress (processed_images progress ++ [image]) (warnings progress)
        (S (drawn progress))
  | inl e =>
      mkProgress (processed_images progress)
        (warnings progress
         ++ [("Failed to process image "
              ++ Py.get (RawImage.id img_data) "unknown")%string])
        (S (drawn progress))
  end.

Definition run_images (images : list RawImage.t)
  (paragraphs : list Paragraph.t) (chapters : list Chapter.t) : Progress :=
  fold_left (process_step paragraphs chapters) images (mkProgress [] [] O).

Definition process_images_with_intelligence (images : list RawImage.t)
  (paragraphs : list Paragraph.t) (chapters : list Chapter.t)
  : list ImageData.t :=
  processed_images (run_images images paragraphs chapters).
End Processing.

End ImageProcessor.


(* ===================================================================== *)
(** ** Citation processing ([analyzers/citation_processor.py]) *)
(* ===================================================================== *)

Module CitationStyleDetector.
Import PyStr.

Definition dquote : ascii := ascii_of_nat 34.

(** [[A-Z][a-z]+], an author's name. *)
Definition author : Re.regex := Re.Seq Re.AZ (Re.Plus Re.az).
Definition spaces : Re.regex := Re.Plus Re.s.
Definition year : Re.regex := Re.Rep 4 Re.d.
Definition number : Re.regex := Re.Plus Re.d.

(** What stands between the brackets in each signature. *)
Definition apa_bodies : list Re.regex :=
  [Re.seqs [author; Re.Lit ","; spaces; year];
   Re.seqs [author; spaces; Re.Lit "&"; spaces; author; Re.Lit ","; spaces;
            year];
   Re.seqs [author; spaces; Re.Txt "et"; spaces; Re.Txt "al.,"; spaces; year]].

Definition mla_bodies : list Re.regex :=
  [Re.seqs [author; spaces; number];
   Re.seqs [author; Re.Lit ","; spaces; Re.Lit dquote;
            Re.Plus (Re.Cls (fun c => negb (Ascii.eqb c dquote)));
            Re.Lit dquote; spaces; number]].

Definition ieee_bodies : list Re.regex :=
  [number; Re.seqs [number; Re.Lit "-"; number]].

Definition in_parens (body : Re.regex) : Re.regex :=
  Re.seqs [Re.Lit "("; body; Re.Lit ")"].
Definition in_brackets (body : Re.regex) : Re.regex :=
  Re.seqs [Re.Lit "["; body; Re.Lit "]"].

Definition apa_patterns : list Re.regex := map in_parens apa_bodies.
Definition mla_patterns : list Re.regex := map in_parens mla_bodies.
Definition ieee_patterns : list Re.regex := map in_brackets ieee_bodies.

(** [sum(len(re.findall(pattern, text)) for pattern in patterns)] *)
Definition count_matches (patterns : list Re.regex) (text : string) : Z :=
  Py.sum (map (fun pattern => Re.count Re.no_flags pattern text) patterns).

(** The decision, on the three counts. *)
Definition dominant_style (apa_count mla_count ieee_count : Z) : string :=
  if (mla_count <? apa_count) && (ieee_count <? apa_count) && (2 <? apa_count)
  then "apa"
  else if (ieee_count <? mla_count) && (2 <? mla_count) then "mla"
  else if 2 <? ieee_count then "ieee"
  else "mixed".

Definition detect_citation_style (text : string) : string :=
  let apa_count := count_matches apa_patterns text in
  let mla_count := count_matches mla_patterns text in
  let ieee_count := count_matches ieee_patterns text in
  dominant_style apa_count mla_count ieee_count.

End CitationStyleDetector.

Module CitationProcessor.
Import PyStr.
Import CitationStyleDetector.

(** The extraction patterns: the signatures, with the body as group 1. *)
Definition apa_patterns : list Re.regex :=
  map (fun body => in_parens (Re.Grp 1 body)) apa_bodies.
Definition mla_patterns : list Re.regex :=
  map (fun body => in_parens (Re.Grp 1 body)) mla_bodies.
Definition ieee_patterns : list Re.regex :=
  map (fun body => in_brackets (Re.Grp 1 body)) ieee_bodies.










Section Extraction.
(** The identifiers [uuid.uuid4()] returns, in the order drawn. *)
Variable uuid4 : nat -> string.





End Extraction.

End CitationProcessor.


(* ===================================================================== *)
(** ** Paragraph processing ([analyzers/paragraph_processor.py]) *)
(* ===================================================================== *)

Module ParagraphProcessor.
Import PyStr.

Definition matches (f : Re.flags) (pattern : Re.regex) (text : string) : bool :=
  match Re.re_match f pattern text with
  | Some _ => true
  | None => false
  end.

(** The glyphs [_clean_text] replaces (ligatures, the en dash, curly
    quotes) lie above code point 255, so no text of the embedding holds
    one and the replacements leave it as it is. *)
Definition _clean_text (text : string) : string :=
  if negb (truthy text) then ""
  else
    let text := Re.sub Re.no_flags (Re.Plus Re.s) " " text in
    let text :=
      Re.sub Re.MULTILINE
        (Re.seqs [Re.Bol; Re.Plus Re.d; Re.Star Re.s; Re.Eol]) "" text in
    let text :=
      Re.sub Re.MULTILINE
        (Re.seqs [Re.Bol; Re.Txt "Page "; Re.Plus Re.d; Re.Txt " of ";
                  Re.Plus Re.d; Re.Star Re.s; Re.Eol]) "" text in
    strip text.

(** The loop over the sentences of a very long paragraph. *)
Fixpoint regroup (current_para : string) (sentences : list string)
  : list string :=
  match sentences with
  | [] => if truthy (strip current_para) then [strip current_para] else []
  | sentence :: rest =>
      if (500 <? len (current_para ++ sentence)%string) && truthy current_para
      then strip current_para :: regroup sentence rest
      else
        regroup
          (if truthy current_para
           then (current_para ++ " " ++ sentence)%string else sentence)
          rest
  end.

Definition sentence_break : Re.regex :=
  Re.Seq (Re.Behind (Re.one_of ".!?")) (Re.Plus Re.s).

Definition _split_block_into_paragraphs (text : string) : list string :=
  let paragraphs := split_on (str [Re.newline; Re.newline]) text in
  flat_map
    (fun para =>
       let para := strip para in
       if negb (truthy para) then []
       else if 1000 <? len para
       then regroup "" (Re.split Re.no_flags sentence_break para)
       else [para])
    paragraphs.

Definition font_truthy (f : FontInfo.t) : bool :=
  match FontInfo.size f, FontInfo.name f, FontInfo.bold f with
  | None, None, None => false
  | _, _, _ => true
  end.

(** [block.get('font_info', {})], an absent key read as the empty
    dictionary. *)
Definition font_of (block : Block.t) : FontInfo.t :=
  Py.get (Block.font_info block) (FontInfo.mk None None None).

Definition _is_heading (text : string) (block : Block.t) : bool :=
  let font_info := font_of block in
  let by_font :=
    font_truthy font_info
    && (Py.Qltb 14 (Py.get (FontInfo.size font_info) 12%Q)
        || Py.get (FontInfo.bold font_info) false)
    && (word_count text <? 20) && negb (endswith text ".") in
  let heading_patterns :=
    [Re.seqs [Re.Bol; Re.Plus Re.d; Re.Lit "."; Re.Star Re.d; Re.Plus Re.s;
              Re.Plus Re.w];
     Re.seqs [Re.Bol; Re.Plus (Re.Cls (Re.one_of "IVX")); Re.Lit ".";
              Re.Plus Re.s; Re.Plus Re.w];
     Re.seqs [Re.Bol;
              Re.Rep 3 (Re.Cls (fun c => is_ascii_upper c || isspace c));
              Re.Star (Re.Cls (fun c => is_ascii_upper c || isspace c));
              Re.Eol];
     Re.seqs [Re.Bol; Re.Txt "Chapter"; Re.Plus Re.s; Re.Plus Re.d]] in
  by_font
  || existsb (fun pattern => matches Re.no_flags pattern (strip text))
       heading_patterns
  || ((word_count text <=? 10)
      && negb (endswith text "." || endswith text "!" || endswith text "?")
      && (isupper text || istitle text)).

Definition squote : string := String (ascii_of_nat 39) "".
Definition dquote : string := String (ascii_of_nat 34) "".

(** The third test of [_is_quote] looks for an em dash, which lies above
    code point 255: on the texts of the embedding it never succeeds. *)
Definition _is_quote (text : string) (block : Block.t) : bool :=
  (startswith text dquote && endswith text dquote)
  || (startswith text squote && endswith text squote)
  || startswith text "> " || startswith text "    ".

(** The bullet sign of the first list pattern lies above code point 255;
    the other three marks of its class are kept. *)
Definition list_patterns : list Re.regex :=
  let marker (mark : Re.regex) :=
    Re.seqs [Re.Bol; Re.Star Re.s; mark; Re.Plus Re.s] in
  let dot_or_paren := Re.Cls (Re.one_of ".)") in
  [marker (Re.Cls (Re.one_of "*-+"));
   marker (Re.Seq (Re.Plus Re.d) dot_or_paren);
   marker (Re.Seq Re.az dot_or_paren);
   marker (Re.Seq (Re.Plus (Re.Cls (Re.one_of "IVX"))) dot_or_paren)].

Definition _is_list (text : string) (block : Block.t) : bool :=
  let lines := split_on (str [Re.newline]) text in
  let non_empty := filter truthy (map strip lines) in
  let matching_lines :=
    Py.len
      (filter
         (fun line =>
            existsb (fun pattern => matches Re.no_flags pattern line)
              list_patterns)
         non_empty) in
  let non_empty_lines := Py.len non_empty in
  (non_empty_lines <? 2 * matching_lines) && (2 <=? matching_lines).

Definition _is_caption (text : string) (block : Block.t) : bool :=
  existsb
    (fun keyword =>
       matches Re.IGNORECASE
         (Re.seqs [Re.Bol; Re.Txt keyword; Re.Plus Re.s; Re.Plus Re.d]) text)
    ["Figure"; "Table"; "Image"; "Diagram"; "Chart"; "Photo"]
  || ((word_count text <=? 20) && contains ":" text).

Definition _is_code_block (text : string) (block : Block.t) : bool :=
  let code_indicators :=
    ["function"; "class"; "def "; "var "; "let "; "const "; "{"; "}"; "()";
     "=>"; "return"; "if ("; "for ("; "while ("] in
  let font_name := lower (Py.get (FontInfo.name (font_of block)) "") in
  existsb (fun mono => contains mono font_name) ["mono"; "courier"; "consolas"]
  || (3 <=? Py.len (filter (fun indicator => contains indicator text)
                      code_indicators)).

Definition _classify_paragraph_type (text : string) (block : Block.t)
  : ParagraphType :=
  if _is_heading text block then HEADING
  else if _is_quote text block then QUOTE
  else if _is_list text block then LIST
  else if _is_caption text block then CAPTION
  else if _is_code_block text block then CODE
  else TEXT.

Definition _assess_paragraph_importance (text : string)
  (para_type : ParagraphType) (block : Block.t) : ImportanceLevel :=
  match para_type with
  | HEADING => HIGH
  | _ =>
      let text_lower := lower text in
      if existsb (fun keyword => contains keyword text_lower)
           ["important"; "critical"; "key"; "essential"; "fundamental";
            "conclusion"; "summary"; "result"; "finding"]
      then HIGH
      else if existsb (fun keyword => contains keyword text_lower)
                ["note"; "consider"; "remember"; "example"; "instance"]
      then MEDIUM
      else
        let font_size := Py.get (FontInfo.size (font_of block)) 12%Q in
        if Py.Qltb 13 font_size then HIGH
        else if Py.Qltb 11 font_size then MEDIUM
        else LOW
  end.

Definition found (pattern : Re.regex) (text : string) : list string :=
  map Re.matched (Re.finditer Re.no_flags pattern text).

Definition _extract_key_concepts (text : string) : list string :=
  let capitalized := Re.Seq Re.AZ (Re.Plus Re.az) in
  let capitalized_terms :=
    found
      (Re.seqs [Re.WordB; capitalized;
                Re.Star (Re.Seq (Re.Plus Re.s) capitalized); Re.WordB])
      text in
  let common_words := ["The"; "This"; "That"; "These"; "Those"; "A"; "An"] in
  let concepts :=
    filter
      (fun term =>
         negb (existsb (String.eqb term) common_words) && (3 <? len term))
      capitalized_terms in
  firstn 10 (dedupe concepts).

Definition _extract_technical_terms (text : string) : list string :=
  let word_with (middle : Re.regex) :=
    Re.seqs [Re.WordB; Re.Star Re.w; middle; Re.Star Re.w; Re.WordB] in
  let patterns :=
    [Re.seqs [Re.WordB; Re.Rep 2 Re.AZ; Re.Star Re.AZ; Re.WordB];
     Re.seqs [Re.WordB; Re.Plus Re.w; Re.Cls (Re.one_of "_-"); Re.Plus Re.w;
              Re.WordB];
     word_with (Re.Seq (Re.Cls (Re.one_of "Tt")) (Re.Txt "ech"));
     word_with (Re.Seq (Re.Cls (Re.one_of "Aa")) (Re.Txt "lgorithm"))] in
  firstn 15 (dedupe (flat_map (fun pattern => found pattern text) patterns)).

Definition _create_bounding_box (bbox_data : option BBox.t)
  : option BoundingBox.t :=
  match bbox_data with
  | Some b =>
      if BBox.truthy b
      then Some
             (BoundingBox.mk (Py.get (BBox.x0 b) 0%Q) (Py.get (BBox.y0 b) 0%Q)
                (Py.get (BBox.x1 b) 0%Q - Py.get (BBox.x0 b) 0%Q)
                (Py.get (BBox.y1 b) 0%Q - Py.get (BBox.y0 b) 0%Q))
      else None
  | None => None
  end.

Definition clean_class (c : ascii) : bool :=
  is_ascii_upper c || is_ascii_lower c || isdigit c || isspace c
  || Re.one_of ".,!?;:()-" c || Ascii.eqb c (ascii_of_nat 34)
  || Ascii.eqb c (ascii_of_nat 39).

Definition _calculate_paragraph_confidence (text : string) (block : Block.t)
  : Q :=
  let confidence := 0.8%Q in
  let confidence :=
    if matches Re.no_flags
         (Re.seqs [Re.Bol; Re.Plus (Re.Cls clean_class); Re.Eol]) text
    then (confidence + 0.1)%Q else confidence in
  let confidence :=
    if (word_count text <? 5) || (500 <? word_count text)
    then (confidence - 0.1)%Q else confidence in
  let confidence :=
    match Block.font_info block with
    | Some f => if font_truthy f then (confidence + 0.05)%Q else confidence
    | None => confidence
    end in
  Qmax 0.1 (Qmin 1.0 confidence).

(** The paragraph built for one piece of text, numbered [counter]. *)
Definition make_paragraph (counter : Z) (para_text : string)
  (block : Block.t) : Paragraph.t :=
  let para_type := _classify_paragraph_type para_text block in
  Paragraph.mk ("para_" ++ pad4 counter)%string "" counter para_text
    (word_count para_text) para_type
    (_assess_paragraph_importance para_text para_type block)
    (_extract_key_concepts para_text) (_extract_technical_terms para_text)
    [] (Block.get_page_number block) (_create_bounding_box (Block.bbox block))
    (Block.font_info block) (_calculate_paragraph_confidence para_text block).

Definition add_paragraph (block : Block.t) (paragraphs : list Paragraph.t)
  (para_text : string) : list Paragraph.t :=
  if len (strip para_text) <? 10 then paragraphs
  else paragraphs ++ [make_paragraph (Py.len paragraphs) para_text block].

Definition add_block (paragraphs : list Paragraph.t) (block : Block.t)
  : list Paragraph.t :=
  let text := _clean_text (Block.get_text block) in
  if len (strip text) <? 10 then paragraphs
  else fold_left (add_paragraph block) (_split_block_into_paragraphs text)
         paragraphs.

(** [paragraph_id_counter] always equals the number of paragraphs built so
    far, so the list alone is the state of the loop. *)
Definition extract_paragraphs_with_classification
  (text_blocks : list Block.t) : list Paragraph.t :=
  fold_left add_block text_blocks [].

End ParagraphProcessor.


(* ===================================================================== *)
(** ** Notions the properties are stated with *)
(* ===================================================================== *)


(** Where a paragraph comes from: a block whose cleaned text is long
    enough, and one of the pieces that text is split into. *)
Definition from_block (block : Block.t) (p : Paragraph.t) : Prop :=
  let text := ParagraphProcessor._clean_text (Block.get_text block) in
  10 <= PyStr.len (PyStr.strip text)
  /\ In (Paragraph.content p)
       (ParagraphProcessor._split_block_into_paragraphs text)
  /\ 10 <= PyStr.len (PyStr.strip (Paragraph.content p)).

Section ImageAttempts.
Variable uuid4 : nat -> string.
Variable paragraphs : list Paragraph.t.
Variable chapters : list Chapter.t.

(** Every record of the input with what processing it gives: the image,
    or what is raised. *)
Fixpoint attempts (drawn : nat) (images : list RawImage.t)
  : list (RawImage.t * (exn + ImageData.t)) :=
  match images with
  | [] => []
  | img_data :: rest =>
      (img_data,
       ImageProcessor.process_one uuid4 drawn img_data paragraphs chapters)
      :: attempts (S drawn) rest
  end.
End ImageAttempts.

(** The images of the attempts that succeed, in order. *)
Definition successes (tried : list (RawImage.t * (exn + ImageData.t)))
  : list ImageData.t :=
  flat_map
    (fun '(_, outcome) =>
       match outcome with
       | inr image => [image]
       | inl _ => []
       end)
    tried.

(** The records of the attempts that raise, in order. *)
Definition failures (tried : list (RawImage.t * (exn + ImageData.t)))
  : list RawImage.t :=
  flat_map
    (fun '(img_data, outcome) =>
       match outcome with
       | inr _ => []
       | inl _ => [img_data]
       end)
    tried.

Definition warning_for (img_data : RawImage.t) : string :=
  "Failed to process image " ++ Py.get (RawImage.id img_data) "unknown".

Section GroupsFromTheRight.
Variable A : Type.
Variable key : A -> Z.
Variable proximity : Z.




End GroupsFromTheRight.












(* ===================================================================== *)
(** ** Sample inputs *)
(* ===================================================================== *)

(** Identifiers in the order drawn: id-0, id-1, ... *)
Definition sample_uuid4 (n : nat) : string :=
  "id-" ++ PyStr.of_int (Z.of_nat n).

(** A text of one hundred words. *)
Definition hundred_words : string :=
  String.concat " " (repeat "word" 100).

(** Two chapters out of consensus, on pages 1 and 20, and a document whose
    only text is one hundred words on page 20. *)
Definition chapter_on_page_1 : Chapter.t :=
  Chapter.mk "c-1" 1 "One" "" 0 1 0.9.
Definition chapter_on_page_20 : Chapter.t :=
  Chapter.mk "c-2" 1 "Two" "" 0 20 0.9.
Definition text_on_page_20 : list Block.t :=
  [Block.mk (Some hundred_words) (Some 20) None None].



(** A heading half-way down the page: y0 = 400 of a height of 800. *)
Definition heading_half_way_down : Block.t :=
  Block.mk (Some "Chapter 1: Introduction") (Some 3)
    (Some (BBox.mk (Some 72%Q) (Some 400%Q) (Some 300%Q) (Some 420%Q))) None.

(** An image record as the engines build them, and one whose confidence
    is out of the bounds of [description_confidence]. *)
Definition sound_image : RawImage.t :=
  RawImage.mk (Some "img_p001_00")
    (Some (BBox.mk (Some 10%Q) (Some 20%Q) (Some 210%Q) (Some 120%Q)))
    (Some 200) (Some 100) (Some 0) None (Some 0.8%Q) (Some 1).
Definition unsound_image : RawImage.t :=
  RawImage.mk (Some "img_p001_01")
    (Some (BBox.mk (Some 10%Q) (Some 20%Q) (Some 210%Q) (Some 120%Q)))
    (Some 200) (Some 100) (Some 0) None (Some 1.5%Q) (Some 1).


(** A text with three APA citations and three MLA citations. *)
Definition tied_styles : string :=
  "(Smith, 2020) (Smith, 2021) (Smith, 2022) (Lee 7) (Lee 8) (Lee 9)".

(** A block of one sentence. *)
Definition one_sentence : list Block.t :=
  [Block.mk (Some "The engine was wired by hand.") (Some 1) None None].

(** A document in which nothing was found. *)
Definition empty_content : BookContent.t := BookContent.mk [] [] [] [].

(** Where the heading stands on the page, from the top, as
    [_validate_chapter_candidate] computes it. *)
Definition relative_position (block : Block.t) : Q :=
  match Block.bbox block with
  | Some bbox => (Py.get (BBox.y0 bbox) 0 / 800)%Q
  | None => 0%Q
  end.

(** From the words of the specification: the heading is in the bottom 70%
    of the page, that is, below the top 30%. *)
Definition in_bottom_70_percent (block : Block.t) : Prop :=
  (0.3 < relative_position block)%Q.

(* ===================================================================== *)
(** ** Properties *)
(* ===================================================================== *)

(** *** Rationals *)


Lemma Qltb_ge (x y : Q) : Py.Qltb x y = false <-> (y <= x)%Q.
Proof.
  unfold Py.Qltb. rewrite negb_false_iff. apply Qle_bool_iff.
Qed.

(** *** Sorting and permutations *)

Section Sorting.
Variable A : Type.
Variable key : A -> Z.

Definition le_key (a b : A) : Prop := key a <= key b.

Lemma insert_by_perm x l : Permutation (Py.insert_by key x l) (x :: l).
Proof.
  induction l as [|y l IH]; simpl.
  - apply Permutation_refl.
  - destruct (key x <=? key y).
    + apply Permutation_refl.
    + apply perm_trans with (y :: x :: l).
      * now apply perm_skip.
      * apply perm_swap.
Qed.

Lemma sorted_perm l : Permutation (Py.sorted key l) l.
Proof.
  induction l as [|x l IH]; simpl.
  - apply perm_nil.
  - apply perm_trans with (x :: Py.sorted key l).
    + apply insert_by_perm.
    + now apply perm_skip.
Qed.

Lemma insert_by_sorted x l :
  StronglySorted le_key l -> StronglySorted le_key (Py.insert_by key x l).
Proof.
  induction l as [|y l IH]; simpl; intros Hs.
  - repeat constructor.
  - inversion Hs as [|? ? Hl Hy]; subst.
    destruct (key x <=? key y) eqn:E.
    + apply Z.leb_le in E. constructor; [exact Hs|].
      constructor; [exact E|].
      rewrite Forall_forall in *. intros z Hz. unfold le_key in *.
      specialize (Hy z Hz). lia.
    + apply Z.leb_gt in E. constructor; [now apply IH|].
      rewrite Forall_forall in *. intros z Hz.
      apply (Permutation_in _ (insert_by_perm x l)) in Hz.
      destruct Hz as [<-|Hz]; [unfold le_key; lia | now apply Hy].
Qed.

Lemma sorted_sorted l : StronglySorted le_key (Py.sorted key l).
Proof.
  induction l as [|x l IH]; simpl; [constructor | now apply insert_by_sorted].
Qed.

Lemma sorted_keys l :
  StronglySorted le_key l -> StronglySorted Z.le (map key l).
Proof.
  induction 1 as [|x l Hs IH Hx]; simpl; constructor; [exact IH|].
  rewrite Forall_forall in *. intros k Hk. apply in_map_iff in Hk.
  destruct Hk as [z [<- Hz]]. now apply Hx.
Qed.
End Sorting.

Lemma sorted_Z_unique (l1 l2 : list Z) :
  StronglySorted Z.le l1 -> StronglySorted Z.le l2 -> Permutation l1 l2 ->
  l1 = l2.
Proof.
  revert l2. induction l1 as [|a l1 IH]; intros l2 H1 H2 Hp.
  - now apply Permutation_nil in Hp.
  - destruct l2 as [|b l2].
    + apply Permutation_sym, Permutation_nil in Hp. discriminate.
    + inversion H1 as [|? ? Hs1 Ha]; inversion H2 as [|? ? Hs2 Hb]; subst.
      rewrite Forall_forall in Ha, Hb.
      assert (a = b).
      { assert (Hb1 : In b (a :: l1))
          by (apply Permutation_in with (b :: l2); [now apply Permutation_sym | now left]).
        assert (Ha2 : In a (b :: l2))
          by (apply Permutation_in with (a :: l1); [exact Hp | now left]).
        destruct Hb1 as [->|Hb1]; [reflexivity|].
        destruct Ha2 as [->|Ha2]; [reflexivity|].
        specialize (Ha _ Hb1). specialize (Hb _ Ha2). lia. }
      subst b. f_equal. apply IH; auto. now apply Permutation_cons_inv in Hp.
Qed.

Lemma sorted_keys_of_permutations (A : Type) (key : A -> Z) (l1 l2 : list A) :
  Permutation l1 l2 ->
  map key (Py.sorted key l1) = map key (Py.sorted key l2).
Proof.
  intros Hp. apply sorted_Z_unique.
  - apply sorted_keys, sorted_sorted.
  - apply sorted_keys, sorted_sorted.
  - apply Permutation_map.
    apply perm_trans with l1; [apply sorted_perm|].
    apply perm_trans with l2; [exact Hp | apply Permutation_sym, sorted_perm].
Qed.


(** *** Grouping by proximity *)

Section Grouping.
Variable A : Type.
Variable key : A -> Z.
Variable proximity : Z.
Hypothesis proximity_nonneg : 0 <= proximity.











End Grouping.




Section GroupLoop.
Import ChapterDetectionEngine.



End GroupLoop.

(** *** The maximum of a list, as [max] finds it *)

Section MaxBy.
Variables (A K : Type) (ltb : K -> K -> bool) (key : A -> K).
Hypothesis ltb_asym : forall a b, ltb a b = true -> ltb b a = false.
Hypothesis ltb_trans :
  forall a b c, ltb a b = true -> ltb b c = true -> ltb a c = true.
Hypothesis geb_trans :
  forall a b c, ltb a b = false -> ltb b c = false -> ltb a c = false.



End MaxBy.



(** *** The representative of a cluster *)

Section Representative.
Import ChapterDetectionEngine.




End Representative.

(** *** Counting titles *)












(** *** The title a cluster settles on *)

Section Titles.
Import ChapterDetectionEngine.



End Titles.

(** *** Consensus *)

Section Consensus.
Import ChapterDetectionEngine.

Lemma len_permutation (A : Type) (l1 l2 : list A) :
  Permutation l1 l2 -> Py.len l1 = Py.len l2.
Proof. intros H. unfold Py.len. f_equal. now apply Permutation_length. Qed.














End Consensus.

(** *** Validation of the chapter list *)

Section Validation.
Import ChapterDetectionEngine.

Lemma renumber_pages i chapters :
  map Chapter.page_number (renumber i chapters)
  = map Chapter.page_number chapters.
Proof.
  revert i. induction chapters as [|c l IH]; intros i; simpl;
    [reflexivity | now rewrite IH].
Qed.

Lemma adjust_pages chapters :
  map Chapter.page_number (_adjust_final_confidences chapters)
  = map Chapter.page_number chapters.
Proof.
  unfold _adjust_final_confidences.
  destruct (filter _ _); [reflexivity|].
  rewrite map_map. apply map_ext. intros c.
  destruct (0 <? Chapter.word_count c); [|reflexivity].
  now destruct (_ || _).
Qed.

Lemma adjust_numbers chapters :
  map Chapter.number (_adjust_final_confidences chapters)
  = map Chapter.number chapters.
Proof.
  unfold _adjust_final_confidences.
  destruct (filter _ _); [reflexivity|].
  rewrite map_map. apply map_ext. intros c.
  destruct (0 <? Chapter.word_count c); [|reflexivity].
  now destruct (_ || _).
Qed.

Lemma sorted_filter (A : Type) (R : Z -> Z -> Prop) (f : A -> Z)
  (keep : A -> bool) (l : list A) :
  StronglySorted R (map f l) -> StronglySorted R (map f (filter keep l)).
Proof.
  induction l as [|x l IH]; simpl; intros H; [constructor|].
  inversion H as [|? ? Hs Hx]; subst. destruct (keep x); [|now apply IH].
  simpl. constructor; [now apply IH|].
  rewrite Forall_forall in *. intros k Hk. apply Hx.
  apply in_map_iff in Hk. destruct Hk as [z [<- Hz]].
  apply filter_In in Hz. apply in_map. tauto.
Qed.

Lemma renumber_numbers i chapters :
  StronglySorted Z.lt (map Chapter.number (renumber i chapters))
  /\ Forall (fun n => i < n <= i + Py.len chapters)
       (map Chapter.number (renumber i chapters)).
Proof.
  revert i. induction chapters as [|c l IH]; intros i; simpl.
  - split; constructor.
  - destruct (IH (i + 1)) as [Hs Hb].
    assert (El : Py.len (c :: l) = Py.len l + 1)
      by (unfold Py.len;
          change (List.length (c :: l)) with (S (List.length l)); lia).
    pose proof (Zle_0_nat (List.length l)) as Hl. fold (Py.len l) in Hl.
    rewrite El. rewrite Forall_forall in Hb. split.
    + constructor; [exact Hs|]. rewrite Forall_forall. intros n Hn.
      specialize (Hb n Hn). simpl in Hb. lia.
    + constructor; [simpl; lia|]. rewrite Forall_forall. intros n Hn.
      specialize (Hb n Hn). simpl in Hb. lia.
Qed.

(** What validation does guarantee: the pages of the chapters it returns
    do not decrease, and their numbers increase strictly within 1 and the
    number of chapters it was given. *)
Lemma validated_chapters_in_order chapters text_blocks :
  let validated := _validate_and_refine chapters text_blocks in
  StronglySorted Z.le (map Chapter.page_number validated)
  /\ StronglySorted Z.lt (map Chapter.number validated)
  /\ Forall (fun n => 1 <= n <= Py.len chapters)
       (map Chapter.number validated).
Proof.
  cbv zeta. unfold _validate_and_refine.
  destruct chapters as [|c0 l0]; [repeat split; constructor|].
  set (chapters := c0 :: l0).
  set (counted := map _ (renumber 0 (Py.sorted Chapter.page_number chapters))).
  assert (Hp : map Chapter.page_number counted
               = map Chapter.page_number (Py.sorted Chapter.page_number chapters)).
  { unfold counted. rewrite map_map. simpl. apply renumber_pages. }
  assert (Hn : map Chapter.number counted
               = map Chapter.number
                   (renumber 0 (Py.sorted Chapter.page_number chapters))).
  { unfold counted. rewrite map_map. reflexivity. }
  destruct (renumber_numbers 0 (Py.sorted Chapter.page_number chapters))
    as [Hs Hb].
  rewrite adjust_pages, adjust_numbers. repeat split.
  - apply sorted_filter. rewrite Hp. apply sorted_keys, sorted_sorted.
  - apply sorted_filter. now rewrite Hn.
  - rewrite Forall_forall in *. intros n Hin.
    apply in_map_iff in Hin. destruct Hin as [c [<- Hc]].
    apply filter_In in Hc. destruct Hc as [Hc _].
    assert (Hin : In (Chapter.number c) (map Chapter.number counted))
      by now apply in_map.
    rewrite Hn in Hin. specialize (Hb _ Hin).
    rewrite (len_permutation (sorted_perm Chapter.page_number chapters)) in Hb.
    lia.
Qed.

(** C1 (code bug).  Validation numbers the chapters 1..N and only then
    removes those with fewer than 100 words, so the numbers of the
    chapters it returns can have gaps: of two chapters on pages 1 and 20,
    in a document whose only text is 100 words on page 20, the one
    returned is numbered 2. *)
Example validation_leaves_a_gap_in_the_numbers :
  let validated :=
    _validate_and_refine [chapter_on_page_1; chapter_on_page_20]
      text_on_page_20 in
  map Chapter.id validated = ["c-2"]
  /\ map Chapter.number validated = [2]
  /\ map Chapter.word_count validated = [100]
  /\ map Chapter.number validated
     <> QualityAssessmentEngine.range_from_1 (List.length validated).
Proof.
  vm_compute. repeat split. discriminate.
Qed.

(** *** Positional validation of a heading *)

(** What the positional validation does guarantee: an accepted heading
    has at most 25 words and, when the block has a bounding box, does not
    stand in the bottom 30% of the page. *)
Lemma accepted_candidate text block :
  _validate_chapter_candidate text block = true ->
  PyStr.word_count text <= 25
  /\ forall bbox, Block.bbox block = Some bbox -> BBox.truthy bbox = true ->
                  (relative_position block <= 0.7)%Q.
Proof.
  unfold _validate_chapter_candidate, relative_position.
  destruct (25 <? PyStr.word_count text) eqn:E; [discriminate|].
  apply Z.ltb_ge in E. intros H. split; [exact E|].
  intros bbox Hb Ht. rewrite Hb in *. rewrite Ht in H.
  destruct (Py.Qltb _ _) eqn:Eq; [discriminate|].
  now apply Qltb_ge in Eq.
Qed.

(** C8 (code bug).  A heading half-way down the page (y0 = 400 of 800,
    relative position 0.5) is in the bottom 70% of the page and is
    accepted all the same: the check rejects only a relative position
    above 0.7. *)
Example heading_in_the_bottom_70_percent_is_accepted :
  in_bottom_70_percent heading_half_way_down
  /\ _validate_chapter_candidate "Chapter 1: Introduction"
       heading_half_way_down = true
  /\ map Chapter.title
       (_detect_by_patterns sample_uuid4 [heading_half_way_down])
     = ["Introduction"].
Proof.
  vm_compute. repeat split.
Qed.
End Validation.

(** *** Consensus: the claims *)

Section ConsensusClaims.
Import ChapterDetectionEngine.




End ConsensusClaims.

(** *** Images *)

Section ImageClaims.
Import ImageProcessor.
Variable uuid4 : nat -> string.
Variable paragraphs : list Paragraph.t.
Variable chapters : list Chapter.t.

Lemma run_images_from (images : list RawImage.t) (progress : Progress) :
  fold_left (process_step uuid4 paragraphs chapters) images progress
  = mkProgress
      (processed_images progress
       ++ successes (attempts uuid4 paragraphs chapters (drawn progress) images))
      (warnings progress
       ++ map warning_for
            (failures (attempts uuid4 paragraphs chapters (drawn progress)
                         images)))
      (drawn progress + List.length images).
Proof.
  revert progress. induction images as [|img rest IH]; intros progress.
  - simpl. destruct progress; simpl. rewrite !app_nil_r, Nat.add_0_r.
    reflexivity.
  - simpl. rewrite IH. unfold process_step.
    destruct (process_one uuid4 (drawn progress) img paragraphs chapters);
      simpl; rewrite <- ?app_assoc, ?app_nil_r; simpl; f_equal; lia.
Qed.

Lemma attempts_length n images :
  List.length (attempts uuid4 paragraphs chapters n images)
  = List.length images.
Proof.
  revert n; induction images; simpl; intros;
    [reflexivity | now rewrite IHimages].
Qed.

Lemma successes_failures_length tried :
  (List.length (successes tried) + List.length (failures tried)
   = List.length tried)%nat.
Proof.
  induction tried as [|[img [e|i]] l IH]; simpl; lia.
Qed.

Lemma processed_images_are_successes (images : list RawImage.t) :
  process_images_with_intelligence uuid4 images paragraphs chapters
  = successes (attempts uuid4 paragraphs chapters 0 images)
  /\ warnings (run_images uuid4 images paragraphs chapters)
     = map warning_for (failures (attempts uuid4 paragraphs chapters 0 images)).
Proof.
  unfold process_images_with_intelligence, run_images.
  rewrite run_images_from. simpl. split; reflexivity.
Qed.

(** C3 (amended).  The returned list holds, in the order of the input,
    the images of the records whose processing does not raise, and only
    those; a record whose processing raises has no entry in it and one
    warning in the log.  So the returned list has one entry per record
    processed without error, and the entries and the warnings together
    are as many as the input records. *)
Theorem failing_images_are_left_out (images : list RawImage.t) :
  let tried := attempts uuid4 paragraphs chapters 0 images in
  let progress := run_images uuid4 images paragraphs chapters in
  process_images_with_intelligence uuid4 images paragraphs chapters
  = successes tried
  /\ warnings progress = map warning_for (failures tried)
  /\ (List.length
        (process_images_with_intelligence uuid4 images paragraphs chapters)
      + List.length (warnings progress) = List.length images)%nat.
Proof.
  cbv zeta. destruct (processed_images_are_successes images) as [E1 E2].
  rewrite E1, E2. repeat split.
  rewrite length_map, successes_failures_length. apply attempts_length.
Qed.

Lemma process_one_relevance n img image :
  process_one uuid4 n img paragraphs chapters = inr image ->
  ImageData.relevance_score image
  = _calculate_relevance_score (_extract_image_context img paragraphs)
      (_generate_smart_description img (_classify_image_type img)
         (_extract_image_context img paragraphs)).
Proof.
  unfold process_one, ImageData.validate. cbv zeta.
  repeat match goal with
         | |- context [if ?b then _ else _] => destruct b
         end; intros H; inversion H; reflexivity.
Qed.

Lemma in_successes image tried :
  In image (successes tried) -> exists img, In (img, inr image) tried.
Proof.
  induction tried as [|[img [e|i]] l IH]; simpl; intros H.
  - contradiction.
  - destruct (IH H) as [x Hx]. eauto.
  - destruct H as [<-|H]; [eauto|]. destruct (IH H) as [x Hx]. eauto.
Qed.

Lemma in_attempts img outcome n images :
  In (img, outcome) (attempts uuid4 paragraphs chapters n images) ->
  exists m, In img images
            /\ outcome = process_one uuid4 m img paragraphs chapters.
Proof.
  revert n. induction images as [|x rest IH]; simpl; intros n H.
  - contradiction.
  - destruct H as [H|H].
    + inversion H; subst. eauto.
    + destruct (IH _ H) as [m [Hm Ho]]. eauto.
Qed.

Lemma relevance_bounds (context : Context) (description : string) :
  (5 <= _calculate_relevance_score context description <= 8.5)%Q.
Proof.
  unfold _calculate_relevance_score.
  destruct (PyStr.truthy (preceding_text context)
            || PyStr.truthy (following_text context));
  destruct (has_caption context);
  destruct (5 <? PyStr.word_count description);
  vm_compute; split; discriminate.
Qed.

Lemma relevance_boosts (context : Context) (description : string) :
  exists text_boost caption_boost description_boost : Q,
    (text_boost = 0 \/ text_boost = 1.0)%Q
    /\ (caption_boost = 0 \/ caption_boost = 1.5)%Q
    /\ (description_boost = 0 \/ description_boost = 1.0)%Q
    /\ (_calculate_relevance_score context description
        == 5.0 + text_boost + caption_boost + description_boost)%Q.
Proof.
  unfold _calculate_relevance_score.
  exists (if PyStr.truthy (preceding_text context)
             || PyStr.truthy (following_text context) then 1.0 else 0)%Q,
         (if has_caption context then 1.5 else 0)%Q,
         (if 5 <? PyStr.word_count description then 1.0%Q else 0%Q).
  destruct (PyStr.truthy (preceding_text context)
            || PyStr.truthy (following_text context));
  destruct (has_caption context);
  destruct (5 <? PyStr.word_count description);
  repeat split; auto; vm_compute; reflexivity.
Qed.

(** C9.  Every image the image processor returns has a relevance score
    between 5.0 and 8.5: the score is the base of 5.0 plus the boosts of
    1.0 (surrounding text), 1.5 (caption) and 1.0 (description of more
    than 5 words), each present or not, so it never falls below 5.0 and
    never reaches the cap of 10.0. *)
Theorem relevance_between_5_and_8_5 (images : list RawImage.t)
  (image : ImageData.t) :
  In image (process_images_with_intelligence uuid4 images paragraphs chapters) ->
  (5.0 <= ImageData.relevance_score image <= 8.5)%Q
  /\ (ImageData.relevance_score image < 10.0)%Q
  /\ exists text_boost caption_boost description_boost : Q,
       (text_boost = 0 \/ text_boost = 1.0)%Q
       /\ (caption_boost = 0 \/ caption_boost = 1.5)%Q
       /\ (description_boost = 0 \/ description_boost = 1.0)%Q
       /\ (ImageData.relevance_score image
           == 5.0 + text_boost + caption_boost + description_boost)%Q.
Proof.
  intros Hin.
  destruct (processed_images_are_successes images) as [E _].
  rewrite E in Hin. apply in_successes in Hin. destruct Hin as [img Hin].
  apply in_attempts in Hin. destruct Hin as [m [_ Ho]]. symmetry in Ho.
  rewrite (process_one_relevance _ _ Ho).
  pose proof (relevance_bounds (_extract_image_context img paragraphs)
                (_generate_smart_description img (_classify_image_type img)
                   (_extract_image_context img paragraphs))) as [H1 H2].
  split; [split; lra|]. split; [lra|]. apply relevance_boosts.
Qed.
End ImageClaims.

Section ImageSamples.
Import ImageProcessor.

(** C3 (as stated) fails.  A record whose confidence is out of bounds
    makes the construction of its image raise; the returned list then has
    no entry for it, with null fields or otherwise: of two records one
    image is returned, and of the failing record alone none. *)
Lemma failing_image_has_no_entry :
  process_one sample_uuid4 1 unsound_image [] []
  = inl (ValidationError "description_confidence")
  /\ map ImageData.id
       (process_images_with_intelligence sample_uuid4
          [sound_image; unsound_image] [] [])
     = ["img_p001_00"]
  /\ process_images_with_intelligence sample_uuid4 [unsound_image] [] [] = []
  /\ List.length
       (process_images_with_intelligence sample_uuid4
          [sound_image; unsound_image] [] [])
     <> List.length [sound_image; unsound_image].
Proof.
  vm_compute. repeat split. discriminate.
Qed.

Lemma relevance_between_5_and_8_5_witness :
  exists image,
    In image
      (process_images_with_intelligence sample_uuid4 [sound_image] [] [])
    /\ (5.0 <= ImageData.relevance_score image <= 8.5)%Q
    /\ (ImageData.relevance_score image < 10.0)%Q.
Proof.
  destruct (process_images_with_intelligence sample_uuid4 [sound_image] [] [])
    as [|image rest] eqn:E; [vm_compute in E; discriminate|].
  assert (Hin : In image
                  (process_images_with_intelligence sample_uuid4
                     [sound_image] [] []))
    by (rewrite E; now left).
  exists image. split; [rewrite <- E; exact Hin|].
  destruct (relevance_between_5_and_8_5 sample_uuid4 [] [] [sound_image]
              image Hin) as [H1 [H2 _]].
  exact (conj H1 H2).
Defined.
End ImageSamples.

(** *** Quality assessment *)

Section QualityClaims.
Import QualityAssessmentEngine.

Lemma clamp01_bounds (q : Q) : (0 <= clamp01 q <= 1)%Q.
Proof.
  unfold clamp01. split.
  - apply Qle_trans with (0.0)%Q; [lra | apply Q.le_max_l].
  - apply Q.max_lub; [lra |].
    apply Qle_trans with (1.0)%Q; [apply Q.le_min_l | lra].
Qed.

Lemma image_quality_le_1 content : (_assess_image_quality content <= 1)%Q.
Proof.
  unfold _assess_image_quality. destruct (BookContent.images content).
  - lra.
  - apply clamp01_bounds.
Qed.

Lemma citation_quality_le_1 content :
  (_assess_citation_quality content <= 1)%Q.
Proof.
  unfold _assess_citation_quality. destruct (BookContent.citations content).
  - lra.
  - apply clamp01_bounds.
Qed.

(** C5.  The overall confidence is 0.3 x structure + 0.4 x content
    + 0.2 x image + 0.1 x citation; for a document with no chapter and no
    paragraph the structure confidence is 0.8 - 0.3 = 0.5, the content
    confidence is 0.8 - 0.4 = 0.4, and the overall confidence is below
    0.8. *)
Theorem overall_confidence_is_the_weighted_blend (content : BookContent.t) :
  let report := comprehensive_quality_check content in
  (overall_confidence report ==
     0.3 * structure_confidence report + 0.4 * content_confidence report
     + 0.2 * image_confidence report + 0.1 * citation_confidence report)%Q
  /\ (BookContent.chapters content = [] ->
      BookContent.paragraphs content = [] ->
      structure_confidence report == 0.8 - 0.3
      /\ structure_confidence report == 0.5
      /\ content_confidence report == 0.8 - 0.4
      /\ content_confidence report == 0.4
      /\ overall_confidence report < 0.8)%Q.
Proof.
  cbv zeta. split.
  - unfold comprehensive_quality_check; simpl. ring.
  - intros Hc Hp.
    assert (Hs : _assess_structure_quality content = clamp01 (0.8 - 0.3)).
    { unfold _assess_structure_quality. rewrite Hc. reflexivity. }
    assert (Ht : _assess_content_quality content = clamp01 (0.8 - 0.4)).
    { unfold _assess_content_quality. rewrite Hp. reflexivity. }
    unfold comprehensive_quality_check; simpl. rewrite Hs, Ht.
    repeat split; try reflexivity.
    pose proof (image_quality_le_1 content).
    pose proof (citation_quality_le_1 content).
    assert (E1 : (clamp01 (0.8 - 0.3) == 0.5)%Q) by reflexivity.
    assert (E2 : (clamp01 (0.8 - 0.4) == 0.4)%Q) by reflexivity.
    rewrite E1, E2. lra.
Qed.

Lemma overall_confidence_is_the_weighted_blend_witness :
  BookContent.chapters empty_content = []
  /\ BookContent.paragraphs empty_content = []
  /\ (structure_confidence (comprehensive_quality_check empty_content) == 0.5
      /\ content_confidence (comprehensive_quality_check empty_content) == 0.4
      /\ overall_confidence (comprehensive_quality_check empty_content) < 0.8)%Q.
Proof.
  split; [reflexivity|]. split; [reflexivity|].
  destruct (overall_confidence_is_the_weighted_blend empty_content)
    as [_ H].
  destruct (H eq_refl eq_refl) as [_ [H1 [_ [H2 H3]]]].
  exact (conj H1 (conj H2 H3)).
Defined.
End QualityClaims.

(** *** Citations *)

Section CitationClaims.
Import CitationProcessor CitationStyleDetector.







Lemma dominant_style_cases (a m i : Z) :
  (dominant_style a m i = "apa" <-> m < a /\ i < a /\ 2 < a)
  /\ (dominant_style a m i = "mla" <-> a <= m /\ i < m /\ 2 < m)
  /\ (dominant_style a m i = "ieee" <-> a <= i /\ m <= i /\ 2 < i)
  /\ (dominant_style a m i = "mixed" <-> a <= 2 /\ m <= 2 /\ i <= 2).
Proof.
  unfold dominant_style.
  destruct (m <? a) eqn:E1; destruct (i <? a) eqn:E2; destruct (2 <? a) eqn:E3;
  destruct (i <? m) eqn:E4; destruct (2 <? m) eqn:E5; destruct (2 <? i) eqn:E6;
  simpl;
  repeat match goal with
         | H : (_ <? _) = true |- _ => apply Z.ltb_lt in H
         | H : (_ <? _) = false |- _ => apply Z.ltb_ge in H
         end;
  repeat split; intros; try discriminate; try lia.
Qed.

(** C7 (amended).  Style detection returns a specific style exactly when
    some count exceeds 2, and the style returned has a count that no
    other count exceeds: "apa" when its count is strictly above both
    others and above 2; "mla" when its count is at least the APA count,
    strictly above the IEEE count and above 2; "ieee" when its count is
    at least both others and above 2; "mixed" when no count exceeds 2.
    A tie between the leading counts goes to MLA over APA and to IEEE
    over both. *)
Theorem style_is_a_leading_count_above_2 (text : string) :
  let apa := count_matches CitationStyleDetector.apa_patterns text in
  let mla := count_matches CitationStyleDetector.mla_patterns text in
  let ieee := count_matches CitationStyleDetector.ieee_patterns text in
  let style := detect_citation_style text in
  (style = "apa" <-> mla < apa /\ ieee < apa /\ 2 < apa)
  /\ (style = "mla" <-> apa <= mla /\ ieee < mla /\ 2 < mla)
  /\ (style = "ieee" <-> apa <= ieee /\ mla <= ieee /\ 2 < ieee)
  /\ (style = "mixed" <-> apa <= 2 /\ mla <= 2 /\ ieee <= 2)
  /\ (style = "apa" \/ style = "mla" \/ style = "ieee" \/ style = "mixed").
Proof.
  cbv zeta. unfold detect_citation_style.
  pose proof (dominant_style_cases
                (count_matches CitationStyleDetector.apa_patterns text)
                (count_matches CitationStyleDetector.mla_patterns text)
                (count_matches CitationStyleDetector.ieee_patterns text))
    as [H1 [H2 [H3 H4]]].
  split; [exact H1|]. split; [exact H2|]. split; [exact H3|].
  split; [exact H4|]. unfold dominant_style.
  destruct (_ && _); [now left|]. destruct (_ && _); [right; now left|].
  destruct (2 <? _); [right; right; now left | right; right; now right].
Qed.

(** C7 (as stated) fails.  With three APA citations and three MLA
    citations the detector returns "mla", whose count does not strictly
    exceed the APA count, and not "mixed". *)
Lemma tied_styles_give_mla :
  count_matches CitationStyleDetector.apa_patterns tied_styles = 3
  /\ count_matches CitationStyleDetector.mla_patterns tied_styles = 3
  /\ count_matches CitationStyleDetector.ieee_patterns tied_styles = 0
  /\ detect_citation_style tied_styles = "mla"
  /\ ~ (count_matches CitationStyleDetector.apa_patterns tied_styles
        < count_matches CitationStyleDetector.mla_patterns tied_styles)
  /\ detect_citation_style tied_styles <> "mixed".
Proof.
  repeat split; try (vm_compute; reflexivity);
    intros H; vm_compute in H; discriminate.
Qed.
End CitationClaims.

(** *** Paragraphs *)

Section ParagraphClaims.
Import ParagraphProcessor.

Lemma add_paragraph_inv (block : Block.t) (P : Paragraph.t -> Prop)
  (pieces all : list string) (acc : list Paragraph.t) :
  (forall piece counter,
      In piece all -> 10 <= PyStr.len (PyStr.strip piece) ->
      P (make_paragraph counter piece block)) ->
  incl pieces all ->
  Forall P acc ->
  Forall P (fold_left (add_paragraph block) pieces acc).
Proof.
  intros HP. revert acc.
  induction pieces as [|piece pieces IH]; intros acc Hincl Hacc.
  - exact Hacc.
  - simpl. apply IH.
    + intros x Hx. apply Hincl. now right.
    + unfold add_paragraph.
      destruct (PyStr.len (PyStr.strip piece) <? 10) eqn:E; [exact Hacc|].
      apply Z.ltb_ge in E. apply Forall_app. split; [exact Hacc|].
      constructor; [|constructor]. apply HP; [|exact E].
      apply Hincl. now left.
Qed.

Lemma add_block_inv (blocks all : list Block.t) (acc : list Paragraph.t) :
  incl blocks all ->
  Forall (fun p => exists block, In block all /\ from_block block p) acc ->
  Forall (fun p => exists block, In block all /\ from_block block p)
    (fold_left add_block blocks acc).
Proof.
  revert acc. induction blocks as [|block blocks IH]; intros acc Hincl Hacc.
  - exact Hacc.
  - simpl. apply IH.
    + intros x Hx. apply Hincl. now right.
    + unfold add_block.
      destruct (PyStr.len (PyStr.strip (_clean_text (Block.get_text block)))
                <? 10) eqn:E; [exact Hacc|].
      apply Z.ltb_ge in E.
      apply add_paragraph_inv
        with (all := _split_block_into_paragraphs
                       (_clean_text (Block.get_text block)));
        [| apply incl_refl | exact Hacc].
      intros piece counter Hin Hlen. exists block. split.
      * apply Hincl. now left.
      * unfold from_block. simpl. auto.
Qed.

(** C10.  Every paragraph that paragraph extraction returns has a content
    of at least 10 characters once stripped of surrounding whitespace; it
    is one of the pieces of a block whose cleaned text has itself at
    least 10 characters, so a shorter block or piece never appears. *)
Theorem paragraphs_have_at_least_10_characters (text_blocks : list Block.t)
  (p : Paragraph.t) :
  In p (extract_paragraphs_with_classification text_blocks) ->
  10 <= PyStr.len (PyStr.strip (Paragraph.content p))
  /\ exists block,
       In block text_blocks
       /\ 10 <= PyStr.len (PyStr.strip (_clean_text (Block.get_text block)))
       /\ In (Paragraph.content p)
            (_split_block_into_paragraphs
               (_clean_text (Block.get_text block))).
Proof.
  intros Hin.
  pose proof (@add_block_inv text_blocks text_blocks [] (incl_refl _)
                (Forall_nil _)) as H.
  rewrite Forall_forall in H. destruct (H p Hin) as [block [Hb [H1 [H2 H3]]]].
  split; [exact H3|]. exists block. auto.
Qed.

Lemma paragraphs_have_at_least_10_characters_witness :
  exists p,
    In p (extract_paragraphs_with_classification one_sentence)
    /\ Paragraph.content p = "The engine was wired by hand."
    /\ 10 <= PyStr.len (PyStr.strip (Paragraph.content p)).
Proof.
  destruct (extract_paragraphs_with_classification one_sentence)
    as [|p rest] eqn:E; [vm_compute in E; discriminate|].
  assert (Hin : In p (extract_paragraphs_with_classification one_sentence))
    by (rewrite E; now left).
  exists p. split; [rewrite <- E; exact Hin|]. split.
  - vm_compute in E. inversion E. reflexivity.
  - exact (proj1 (paragraphs_have_at_least_10_characters one_sentence p Hin)).
Defined.
End ParagraphClaims.
